(** * capitol-ai-search: the transform / validate / embed pipeline

    A shallow embedding of [server/src/pipeline.py].  Python values as
    decoded by [json.loads] are a small inductive type, strings are lists of
    code points, dictionaries are association lists in insertion order,
    and raising code lives in an error monad that records the exception
    class.  The external collaborators (the HTML parser, the ISO-8601
    parser, string formatting of non-strings, the two embedding services)
    are section variables: every result holds for any behaviour of theirs
    unless a hypothesis says otherwise. *)

From Stdlib Require Import String Ascii.
From Stdlib Require Import List ZArith NArith QArith Lia Bool.
Import ListNotations.
Local Close Scope Q_scope.
Local Open Scope Z_scope.
Local Open Scope list_scope.

Set Implicit Arguments.
Set Warnings "-register-all".

(** ** Python strings *)

(** A Python [str] is a sequence of Unicode code points. *)
Definition str := list N.

(** ASCII literals of the source. *)
Definition lit (s : string) : str :=
  map N_of_ascii (list_ascii_of_string s).

Definition str_eqb (a b : str) : bool :=
  if list_eq_dec N.eq_dec a b then true else false.

Definition is_empty {A} (l : list A) : bool :=
  match l with [] => true | _ => false end.

Definition NBSP : N := 160%N.
Definition SPACE : N := 32%N.
Definition TAB : N := 9%N.
Definition NL : N := 10%N.
Definition LT : N := 60%N.
Definition AMP : N := 38%N.
Definition AT : N := 64%N.

(** [c in s] for a one-character [c]. *)
Definition has_char (c : N) (s : str) : bool := existsb (N.eqb c) s.

(** [s.replace(c, d)] for one-character [c] and [d]. *)
Definition replace_char (c d : N) (s : str) : str :=
  map (fun x => if N.eqb x c then d else x) s.

(** [str.isspace] on one code point (CPython's [_PyUnicode_IsWhitespace]). *)
Definition is_space (c : N) : bool :=
  ((9 <=? c) && (c <=? 13) || (28 <=? c) && (c <=? 32) ||
   (c =? 133) || (c =? 160) || (c =? 5760) ||
   (8192 <=? c) && (c <=? 8202) || (c =? 8232) || (c =? 8233) ||
   (c =? 8239) || (c =? 8287) || (c =? 12288))%N.

Fixpoint lstrip_by (p : N -> bool) (s : str) : str :=
  match s with
  | c :: r => if p c then lstrip_by p r else s
  | [] => []
  end.

Definition rstrip_by (p : N -> bool) (s : str) : str :=
  rev (lstrip_by p (rev s)).

Definition strip_by (p : N -> bool) (s : str) : str :=
  rstrip_by p (lstrip_by p s).

(** [s.strip()] *)
Definition strip (s : str) : str := strip_by is_space s.

Fixpoint startswith (s p : str) : bool :=
  match p, s with
  | [], _ => true
  | a :: p', b :: s' => N.eqb a b && startswith s' p'
  | _ :: _, [] => false
  end.

Definition endswith (s p : str) : bool := startswith (rev s) (rev p).

(** [p in s] for strings: substring test. *)
Fixpoint is_substring (p s : str) : bool :=
  startswith s p ||
  match s with
  | [] => false
  | _ :: r => is_substring p r
  end.

(** [s.replace(c, new)] for a one-character [c] and any [new]. *)
Definition replace_char_str (c : N) (new : str) (s : str) : str :=
  flat_map (fun x => if N.eqb x c then new else [x]) s.

(** ** Text normalisation *)

Definition is_hspace (c : N) : bool := N.eqb c SPACE || N.eqb c TAB.
Definition is_nl (c : N) : bool := N.eqb c NL.

Definition starts_nl (s : str) : bool :=
  match s with c :: _ => is_nl c | [] => false end.

(** [re.sub(r"[ \t]*\n[ \t]*", "\n", text)]: every newline swallows the
    run of spaces and tabs on both of its sides.  Computed from the right:
    a newline drops the blanks that follow it, a blank that is followed
    (after the rewriting of the rest) by a newline is dropped. *)
Fixpoint collapse_newlines (s : str) : str :=
  match s with
  | [] => []
  | c :: r =>
      let r' := collapse_newlines r in
      if is_nl c then NL :: lstrip_by is_hspace r'
      else if is_hspace c then (if starts_nl r' then r' else c :: r')
      else c :: r'
  end.

(** ** Python values and exceptions *)

(** What [json.loads] produces.  A float is the rational it denotes. *)
Inductive value :=
| VNone
| VBool (b : bool)
| VInt (z : Z)
| VFloat (q : Q)
| VStr (s : str)
| VList (l : list value)
| VDict (d : list (str * value)).

(** A [dict] keeps its items in insertion order. *)
Definition dict := list (str * value).

Inductive exn :=
| ValueError (msg : string)
| AttributeError
| TypeError
| KeyError
| IndexError
| ExternalError.

Inductive result (A : Type) :=
| Ok (a : A)
| Raise (e : exn).
Arguments Ok {A} a.
Arguments Raise {A} e.

Definition bind {A B} (m : result A) (k : A -> result B) : result B :=
  match m with
  | Ok a => k a
  | Raise e => Raise e
  end.

Notation "x <- m ;; k" := (bind m (fun x => k))
  (at level 61, m at next level, right associativity).
Notation "m ;;; k" := (bind m (fun _ => k))
  (at level 61, right associativity).

Definition succeeds {A} (m : result A) : bool :=
  match m with Ok _ => true | Raise _ => false end.

(** [for x in l: f(x)], collecting the results, stopping at the first
    exception. *)
Fixpoint mapM {A B} (f : A -> result B) (l : list A) : result (list B) :=
  match l with
  | [] => Ok []
  | a :: r => b <- f a ;; bs <- mapM f r ;; Ok (b :: bs)
  end.

(** Truth value of an object, as [if], [not], [and] and [or] test it. *)
Definition truthy (v : value) : bool :=
  match v with
  | VNone => false
  | VBool b => b
  | VInt z => negb (z =? 0)
  | VFloat q => negb (Qeq_bool q 0)
  | VStr s => negb (is_empty s)
  | VList l => negb (is_empty l)
  | VDict d => negb (is_empty d)
  end.

(** [a or b] *)
Definition py_or (a b : value) : value := if truthy a then a else b.

Fixpoint lookup (d : dict) (k : str) : option value :=
  match d with
  | [] => None
  | (k', v) :: r => if str_eqb k' k then Some v else lookup r k
  end.

(** [d.get(k)] *)
Definition dict_get (d : dict) (k : str) : value :=
  match lookup d k with Some v => v | None => VNone end.

(** [d.get(k, default)] *)
Definition dict_get_default (d : dict) (k : str) (default : value) : value :=
  match lookup d k with Some v => v | None => default end.

(** [k in d] *)
Definition dict_has (d : dict) (k : str) : bool :=
  match lookup d k with Some _ => true | None => false end.

(** [d[k] = v]: an existing key keeps its place. *)
Fixpoint dict_set (d : dict) (k : str) (v : value) : dict :=
  match d with
  | [] => [(k, v)]
  | (k', v') :: r =>
      if str_eqb k' k then (k', v) :: r else (k', v') :: dict_set r k v
  end.

(** [v.get(k)]: only a dict has the method. *)
Definition py_get (v : value) (k : str) : result value :=
  match v with
  | VDict d => Ok (dict_get d k)
  | _ => Raise AttributeError
  end.

(** [v[k]] for a string [k]. *)
Definition py_getitem (v : value) (k : str) : result value :=
  match v with
  | VDict d => match lookup d k with Some x => Ok x | None => Raise KeyError end
  | _ => Raise TypeError
  end.

(** [k in v] for a string [k]: key of a dict, substring of a string,
    element of a list; numbers, booleans and [None] are not containers. *)
Definition py_contains (v : value) (k : str) : result bool :=
  match v with
  | VDict d => Ok (dict_has d k)
  | VStr s => Ok (is_substring k s)
  | VList l =>
      Ok (existsb (fun x => match x with VStr s => str_eqb s k | _ => false end) l)
  | _ => Raise TypeError
  end.

(** [for x in v]: the items a loop over [v] sees. *)
Definition py_iter (v : value) : result (list value) :=
  match v with
  | VList l => Ok l
  | VDict d => Ok (map (fun kv => VStr (fst kv)) d)
  | VStr s => Ok (map (fun c => VStr [c]) s)
  | _ => Raise TypeError
  end.

(** [isinstance(v, str) and v.strip()] as a test. *)
Definition nonblank_str (v : value) : bool :=
  match v with
  | VStr s => negb (is_empty (strip s))
  | _ => false
  end.

(** Keys under which set membership identifies hashable objects: [1],
    [1.0] and [True] are one key.  Lists and dicts are unhashable. *)
Inductive hkey :=
| HNone
| HNum (q : Q)
| HStr (s : str).

Definition py_hash (v : value) : result hkey :=
  match v with
  | VNone => Ok HNone
  | VBool b => Ok (HNum (if b then 1%Q else 0%Q))
  | VInt z => Ok (HNum (inject_Z z))
  | VFloat q => Ok (HNum q)
  | VStr s => Ok (HStr s)
  | VList _ | VDict _ => Raise TypeError
  end.

Definition hkey_eqb (a b : hkey) : bool :=
  match a, b with
  | HNone, HNone => true
  | HNum p, HNum q => Qeq_bool p q
  | HStr s, HStr t => str_eqb s t
  | _, _ => false
  end.

(** ** The embedding services *)

(** One item of the remote service's [response.data]. *)
Record item := { index : Z; embedding : list Q }.

(** A loaded [SentenceTransformer] model: its declared output size and
    [model.encode(texts, ...)], a two-dimensional array given by its rows. *)
Record st_model := {
  get_sentence_embedding_dimension : option Z;
  encode : list value -> result (list (list Q))
}.

(** A vector as a Python list of floats. *)
Definition vector (e : list Q) : value := VList (map VFloat e).

(** [l[i] = v] on a list, with Python's negative indices. *)
Fixpoint set_nth {A} (n : nat) (l : list A) (v : A) : list A :=
  match l, n with
  | [], _ => []
  | _ :: r, O => v :: r
  | a :: r, S m => a :: set_nth m r v
  end.

Definition list_setitem (l : list value) (i : Z) (v : value)
  : result (list value) :=
  let n := Z.of_nat (length l) in
  let j := if i <? 0 then i + n else i in
  if (0 <=? j) && (j <? n) then Ok (set_nth (Z.to_nat j) l v)
  else Raise IndexError.

(** [range(0, n, step)] *)
Definition py_range (n : nat) (step : Z) : result (list nat) :=
  if step =? 0 then Raise (ValueError "range() arg 3 must not be zero")
  else if step <? 0 then Ok []
  else
    let st := Z.to_nat step in
    Ok (map (fun k => k * st)%nat (seq 0 ((n + st - 1) / st)%nat)).

(** [l[start:stop]] for a start that is not negative. *)
Definition py_slice {A} (l : list A) (start : nat) (stop : Z) : list A :=
  let n := Z.of_nat (length l) in
  let e := if stop <? 0 then Z.max 0 (stop + n) else stop in
  firstn (Z.to_nat e - start) (skipn start l).

(** ** Sample collaborators

    Concrete stand-ins for the external collaborators, used where a result
    is evaluated on a sample input. *)

Definition entity_table : list (str * N) :=
  [(lit "&amp;", AMP); (lit "&lt;", LT); (lit "&gt;", 62%N);
   (lit "&quot;", 34%N); (lit "&nbsp;", NBSP)].

(** Character references replaced by their characters, left to right;
    [skip] counts the characters of a reference still to be passed over. *)
Fixpoint decode_entities (skip : nat) (s : str) : str :=
  match s with
  | [] => []
  | c :: r =>
      match skip with
      | S k => decode_entities k r
      | O =>
          match find (fun e => startswith s (fst e)) entity_table with
          | Some (name, ch) => ch :: decode_entities (length name - 1) r
          | None => c :: decode_entities 0 r
          end
      end
  end.

(** What BeautifulSoup's [get_text] returns for text without tags whose
    character references are among [&amp; &lt; &gt; &quot; &nbsp;]: the
    references are decoded and every other character is kept. *)
Definition entity_get_text (s : str) : str := decode_entities 0 s.

Definition is_digit (c : N) : bool := ((48 <=? c) && (c <=? 57))%N.

(** [pat] against [s], a [d] of the pattern standing for any digit. *)
Fixpoint matches (pat s : str) : bool :=
  match pat, s with
  | [], [] => true
  | p :: pat', c :: s' =>
      (if N.eqb p 100 then is_digit c else N.eqb p c) && matches pat' s'
  | _, _ => false
  end.

(** A parser for the one format that [validate_output]'s messages name,
    [YYYY-MM-DDTHH:MM:SS[.fff]] with the offset [+00:00]; the digits are
    not range-checked. *)
Definition iso_utc_format (s : str) : bool :=
  matches (lit "dddd-dd-ddTdd:dd:dd+00:00") s ||
  matches (lit "dddd-dd-ddTdd:dd:dd.ddd+00:00") s ||
  matches (lit "dddd-dd-ddTdd:dd:dd.dddddd+00:00") s.

(** A rendering for objects that are not strings; the sample documents
    carry string identifiers only, so it is applied to nothing there. *)
Definition repr_placeholder (v : value) : str := lit "<object>".

(** A remote service that answers a request with one two-component vector
    per input, last input first, each item carrying its input's position:
    the vector of position [i] is [(i, 1)]. *)
Definition position_vector (i : nat) : list Q := [inject_Z (Z.of_nat i); 1%Q].

Definition reversing_service (k : nat) (model : str) (batch : list value)
  : result (list item) :=
  Ok (rev (map (fun i => {| index := Z.of_nat i; embedding := position_vector i |})
             (seq 0 (length batch)))).

(** A vector read off a text alone: its length and 1. *)
Definition text_vector (t : value) : list Q :=
  match t with
  | VStr s => [inject_Z (Z.of_nat (length s)); 1%Q]
  | _ => [0%Q; 1%Q]
  end.

(** One item per text of [batch], in input order, indexed from [i]. *)
Fixpoint indexed_items (i : nat) (batch : list value) : list item :=
  match batch with
  | [] => []
  | t :: r =>
      {| index := Z.of_nat i; embedding := text_vector t |}
        :: indexed_items (S i) r
  end.

(** A remote service that answers every batch honestly, last input
    first. *)
Definition scrambling_service (k : nat) (model : str) (batch : list value)
  : result (list item) :=
  Ok (rev (indexed_items 0 batch)).

(** A local model of output size 2 that encodes every text as [(0, 1)]. *)
Definition constant_model : st_model :=
  {| get_sentence_embedding_dimension := Some 2;
     encode := fun texts => Ok (map (fun _ => position_vector 0) texts) |}.

Section Pipeline.

(** *** External collaborators *)

(** [BeautifulSoup(raw, "html.parser").get_text(separator="\n")] *)
Variable get_text : str -> str.

(** Whether [datetime.fromisoformat] accepts its argument. *)
Variable fromisoformat : str -> bool.

(** [format(v, "")] of an object that is not a string, as an f-string
    field renders it. *)
Variable repr_nonstr : value -> str.

(** *** TextNormalizer *)

(** [strip_html] on a string argument. *)
Definition strip_html (raw : str) : str :=
  if is_empty raw then []
  else if negb (has_char LT raw) && negb (has_char AMP raw) then raw
  else get_text raw.

(** [normalize_text] on a string argument. *)
Definition normalize_str (text : str) : str :=
  let text := replace_char NBSP SPACE text in
  let text := strip_html text in
  let text := collapse_newlines text in
  strip_by is_nl text.

(** [normalize_text]: [None] gives the empty string, any other object
    that is not a string has no [replace] method. *)
Definition normalize_text (text : value) : result str :=
  match text with
  | VNone => Ok []
  | VStr s => Ok (normalize_str s)
  | _ => Raise AttributeError
  end.

(** [dedupe_preserve]: the loop with its [seen] set and [ordered] list. *)
Fixpoint dedupe_loop (seen : list hkey) (seq : list value)
  : result (list value) :=
  match seq with
  | [] => Ok []
  | item :: rest =>
      if negb (truthy item) then dedupe_loop seen rest
      else
        h <- py_hash item ;;
        if existsb (hkey_eqb h) seen then dedupe_loop seen rest
        else
          tl <- dedupe_loop (h :: seen) rest ;;
          Ok (item :: tl)
  end.

Definition dedupe_preserve (seq : list value) : result (list value) :=
  dedupe_loop [] seq.

(** The combining loop of [extract_text]. *)
Fixpoint join_space (combined : str) (parts : list str) : str :=
  match parts with
  | [] => combined
  | part :: rest =>
      if is_empty combined then join_space part rest
      else join_space (combined ++ SPACE :: part) rest
  end.

(** One round of the first loop of [extract_text]: what [elem] adds to
    [segments]. *)
Definition text_segment (elem : value) : result (list value) :=
  match elem with
  | VDict d =>
      match dict_get d (lit "type") with
      | VStr t =>
          if str_eqb t (lit "text")
          then Ok [dict_get_default d (lit "content") (VStr [])]
          else Ok []
      | _ => Ok []
      end
  | _ => Raise AttributeError
  end.

Definition extract_text (content_elements : value) : result str :=
  if negb (truthy content_elements) then Ok []
  else
    elems <- py_iter content_elements ;;
    segments <- mapM text_segment elems ;;
    normalized <- mapM normalize_text (List.concat segments) ;;
    let cleaned := filter (fun s => negb (is_empty s)) normalized in
    Ok (join_space [] cleaned).

(** *** MetadataExtractor *)

Definition label_keys : list str :=
  [lit "name"; lit "text"; lit "description"; lit "slug"].

(** The inner loop of [collect_names]: the first truthy label, if any. *)
Fixpoint first_label (d : dict) (keys : list str) : list value :=
  match keys with
  | [] => []
  | key :: rest =>
      let val := dict_get d key in
      if truthy val then [val] else first_label d rest
  end.

Definition item_label (item : value) : result (list value) :=
  match item with
  | VDict d => Ok (first_label d label_keys)
  | _ => Raise AttributeError
  end.

Definition collect_names (items : value) : result (list value) :=
  its <- py_iter items ;;
  names <- mapM item_label its ;;
  Ok (List.concat names).

(** An f-string field. *)
Definition format_value (v : value) : str :=
  match v with
  | VStr s => s
  | _ => repr_nonstr v
  end.

Definition build_url (doc : dict) : result value :=
  let candidate :=
    py_or (dict_get doc (lit "canonical_url")) (dict_get doc (lit "website_url")) in
  let website :=
    py_or (dict_get doc (lit "canonical_website")) (dict_get doc (lit "website")) in
  if negb (truthy candidate) then Ok VNone
  else
    match candidate with
    | VStr c =>
        if startswith c (lit "http") then Ok candidate
        else if truthy website then
          Ok (VStr (lit "https://www." ++ format_value website
                      ++ lit ".com" ++ c))
        else Ok candidate
    | _ => Raise AttributeError
    end.

(** [tag.lstrip("@")] *)
Definition lstrip_at (tag : value) : result value :=
  match tag with
  | VStr s => Ok (VStr (lstrip_by (N.eqb AT) s))
  | _ => Raise AttributeError
  end.

Definition promo_keys : list str :=
  [lit "basic"; lit "lead_art"; lit "square1x1"].

(** The thumbnail loop of [extract_metadata]; [VNone] when no key
    qualifies. *)
Fixpoint find_thumb (promo : value) (keys : list str) : result value :=
  match keys with
  | [] => Ok VNone
  | key :: rest =>
      present <- py_contains promo key ;;
      if present then
        item <- py_getitem promo key ;;
        u <- py_get item (lit "url") ;;
        if truthy u then
          item' <- py_getitem promo key ;;
          py_getitem item' (lit "url")
        else find_thumb promo rest
      else find_thumb promo rest
  end.

(** [if isinstance(v, str) and v.strip(): metadata[key] = v] *)
Definition set_if_nonblank (metadata : dict) (key : str) (v : value) : dict :=
  if nonblank_str v then dict_set metadata key v else metadata.

Definition extract_metadata (doc : dict) : result dict :=
  let taxonomy := py_or (dict_get doc (lit "taxonomy")) (VDict []) in
  s <- py_get taxonomy (lit "sections") ;;
  s_names <- collect_names (py_or s (VList [])) ;;
  sections <- dedupe_preserve s_names ;;
  c <- py_get taxonomy (lit "categories") ;;
  c_names <- collect_names (py_or c (VList [])) ;;
  categories <- dedupe_preserve c_names ;;
  t <- py_get taxonomy (lit "tags") ;;
  t_names <- collect_names (py_or t (VList [])) ;;
  t_stripped <- mapM lstrip_at t_names ;;
  tags <- dedupe_preserve t_stripped ;;
  let promo := py_or (dict_get doc (lit "promo_items")) (VDict []) in
  thumb <- find_thumb promo promo_keys ;;
  let metadata : dict := [] in
  title <- py_get (py_or (dict_get doc (lit "headlines")) (VDict [])) (lit "basic") ;;
  let metadata := set_if_nonblank metadata (lit "title") title in
  url <- build_url doc ;;
  let metadata := dict_set metadata (lit "url") url in
  let metadata := dict_set metadata (lit "external_id") (dict_get doc (lit "_id")) in
  let metadata :=
    set_if_nonblank metadata (lit "publish_date") (dict_get doc (lit "publish_date")) in
  let display_date :=
    py_or (dict_get doc (lit "display_date")) (dict_get doc (lit "publish_date")) in
  let metadata := set_if_nonblank metadata (lit "datetime") display_date in
  let metadata :=
    set_if_nonblank metadata (lit "first_publish_date")
      (dict_get doc (lit "first_publish_date")) in
  let website :=
    py_or (dict_get doc (lit "canonical_website")) (dict_get doc (lit "website")) in
  let metadata := set_if_nonblank metadata (lit "website") website in
  let metadata := dict_set metadata (lit "sections") (VList sections) in
  let metadata := dict_set metadata (lit "categories") (VList categories) in
  let metadata := dict_set metadata (lit "tags") (VList tags) in
  let metadata := set_if_nonblank metadata (lit "thumb") thumb in
  Ok metadata.

(** *** DocumentTransformer *)

Definition transform_document (doc : value) : result dict :=
  match doc with
  | VDict d =>
      text <- extract_text (dict_get d (lit "content_elements")) ;;
      metadata <- extract_metadata d ;;
      Ok [(lit "text", VStr text); (lit "metadata", VDict metadata)]
  | _ => Raise AttributeError
  end.

(** *** DocumentValidator *)

(** [for x in l: f(x)] for a body without a result. *)
Fixpoint forM_ {A} (f : A -> result unit) (l : list A) : result unit :=
  match l with
  | [] => Ok tt
  | a :: r => f a ;;; forM_ f r
  end.

Definition check_text (doc : dict) : result unit :=
  match dict_get doc (lit "text") with
  | VStr s =>
      if is_empty (strip s) then Raise (ValueError "Invalid text field")
      else Ok tt
  | _ => Raise (ValueError "Invalid text field")
  end.

Definition check_required (md : value) (key : string) : result unit :=
  v <- py_get md (lit key) ;;
  if negb (truthy v) then
    Raise (ValueError ("Missing required metadata." ++ key))
  else Ok tt.

Definition check_timestamp (md : value) (ts_key : string) : result unit :=
  ts_val <- py_get md (lit ts_key) ;;
  match ts_val with
  | VNone => Ok tt
  | VStr s =>
      if negb (endswith s (lit "Z")) then
        Raise (ValueError ("metadata." ++ ts_key ++ " must end with Z (UTC)"))
      else if fromisoformat (replace_char_str 90%N (lit "+00:00") s) then Ok tt
      else
        Raise (ValueError ("metadata." ++ ts_key ++
          " must match ISO 8601 UTC format YYYY-MM-DDTHH:MM:SS[.fff]Z"))
  | _ =>
      Raise (ValueError ("metadata." ++ ts_key ++
        " must be string in ISO 8601 UTC format YYYY-MM-DDTHH:MM:SS[.fff]Z"))
  end.

Definition check_embedding (doc : dict) (embedding_dim : option Z)
  : result unit :=
  match embedding_dim with
  | None => Ok tt
  | Some dim =>
      if negb (dim =? 0) && dict_has doc (lit "embedding") then
        match dict_get doc (lit "embedding") with
        | VList emb =>
            if Z.of_nat (length emb) =? dim then Ok tt
            else Raise (ValueError "Embedding dimension mismatch")
        | _ => Raise (ValueError "Embedding dimension mismatch")
        end
      else Ok tt
  end.

Definition required_keys : list string := ["external_id"; "url"]%string.
Definition timestamp_keys : list string :=
  ["publish_date"; "datetime"; "first_publish_date"]%string.

Definition validate_output (doc : dict) (embedding_dim : option Z)
  : result unit :=
  check_text doc ;;;
  let md := dict_get_default doc (lit "metadata") (VDict []) in
  forM_ (check_required md) required_keys ;;;
  forM_ (check_timestamp md) timestamp_keys ;;;
  check_embedding doc embedding_dim.

(** *** EmbeddingProvider *)

(** [SentenceTransformer(model_name)] *)
Variable SentenceTransformer : str -> result st_model.

(** [client.embeddings.create(model=..., input=batch)]: the items of
    [response.data].  The first argument numbers the requests of a run,
    so that two requests with the same batch may be answered
    differently. *)
Variable embeddings_create : nat -> str -> list value -> result (list item).

(** [texts = [doc["text"] for doc in docs]] *)
Definition doc_texts (docs : list dict) : result (list value) :=
  mapM (fun doc => py_getitem (VDict doc) (lit "text")) docs.

(** [for doc, emb in zip(docs, embeddings)]: attach and re-validate.  The
    documents are mutated in place; the result is the list afterwards,
    and documents beyond the shorter of the two sequences stay as they
    were. *)
Fixpoint attach_embeddings (dim : option Z) (docs : list dict)
  (embeddings : list value) : result (list dict) :=
  match docs, embeddings with
  | doc :: docs', emb :: embeddings' =>
      let doc := dict_set doc (lit "embedding") emb in
      validate_output doc dim ;;;
      rest <- attach_embeddings dim docs' embeddings' ;;
      Ok (doc :: rest)
  | _, _ => Ok docs
  end.

Definition add_embeddings_sentence_transformers (docs : list dict)
  (model_name : str) : result (list dict * option Z) :=
  model <- SentenceTransformer model_name ;;
  let dim := get_sentence_embedding_dimension model in
  texts <- doc_texts docs ;;
  embeddings <- encode model texts ;;
  docs' <- attach_embeddings dim docs (map vector embeddings) ;;
  Ok (docs', dim).

(** The loop that fills [batch_embeddings] from [response.data]. *)
Fixpoint place_items (batch_embeddings : list value) (data : list item)
  : result (list value) :=
  match data with
  | [] => Ok batch_embeddings
  | it :: rest =>
      slots <- list_setitem batch_embeddings (index it) (vector (embedding it)) ;;
      place_items slots rest
  end.

Definition place_by_index (data : list item) : result (list value) :=
  place_items (repeat VNone (length data)) data.

(** The batch loop, [k] counting the requests made so far. *)
Fixpoint embed_batches (model_name : str) (batch_size : Z)
  (texts : list value) (k : nat) (starts : list nat)
  : result (list value) :=
  match starts with
  | [] => Ok []
  | start :: rest =>
      let batch := py_slice texts start (Z.of_nat start + batch_size) in
      data <- embeddings_create k model_name batch ;;
      batch_embeddings <- place_by_index data ;;
      more <- embed_batches model_name batch_size texts (S k) rest ;;
      Ok (batch_embeddings ++ more)
  end.

(** [len(v)] *)
Definition py_len (v : value) : result Z :=
  match v with
  | VStr s => Ok (Z.of_nat (length s))
  | VList l => Ok (Z.of_nat (length l))
  | VDict d => Ok (Z.of_nat (length d))
  | _ => Raise TypeError
  end.

(** [api_key] is [os.getenv("OPENAI_API_KEY")]. *)
Definition add_embeddings_openai (api_key : option str) (docs : list dict)
  (model_name : str) (batch_size : Z) : result (list dict * Z) :=
  match api_key with
  | Some (_ :: _) =>
      texts <- doc_texts docs ;;
      starts <- py_range (length texts) batch_size ;;
      embeddings <- embed_batches model_name batch_size texts 0 starts ;;
      match embeddings with
      | [] => Raise (ValueError "No embeddings returned from OpenAI")
      | first :: _ =>
          dim <- py_len first ;;
          docs' <- attach_embeddings (Some dim) docs embeddings ;;
          Ok (docs', dim)
      end
  | _ => Raise (ValueError "OPENAI_API_KEY not set")
  end.

(** *** Pipeline orchestrator *)

(** [if limit: raw = raw[:limit]] *)
Definition apply_limit (limit : option Z) (raw : list value) : list value :=
  match limit with
  | Some n => if negb (n =? 0) then py_slice raw 0 n else raw
  | None => raw
  end.

(** The transform loop.  The handler logs [doc.get("_id")], which itself
    raises when the offending element is not an object. *)
(** The body of the loop's [try]. *)
Definition try_transform (doc : value) : result dict :=
  transformed_doc <- transform_document doc ;;
  validate_output transformed_doc None ;;;
  Ok transformed_doc.

Fixpoint transform_loop (raw : list value) : result (list dict) :=
  match raw with
  | [] => Ok []
  | doc :: rest =>
      match try_transform doc with
      | Ok transformed_doc =>
          more <- transform_loop rest ;;
          Ok (transformed_doc :: more)
      | Raise _ =>
          py_get doc (lit "_id") ;;;
          transform_loop rest
      end
  end.

(** [run_pipeline] up to and including the write of the output file: the
    result is the list of documents written.  [raw] is the decoded input
    array and [api_key] the environment's credential. *)
Definition run_pipeline (api_key : option str) (raw : list value)
  (limit : option Z) (model_name : str) (skip_embeddings : bool)
  (provider : str) (openai_model : str) : result (list dict) :=
  let raw := apply_limit limit raw in
  transformed <- transform_loop raw ;;
  if negb skip_embeddings then
    if str_eqb provider (lit "openai") then
      r <- add_embeddings_openai api_key transformed openai_model 100 ;;
      Ok (fst r)
    else
      r <- add_embeddings_sentence_transformers transformed model_name ;;
      Ok (fst r)
  else Ok transformed.

End Pipeline.

(** ** VectorStoreSink *)

(** The arguments of one [models.PointStruct(id=..., vector=..., payload=...)]. *)
Record point := {
  point_id : nat;
  point_vector : value;
  point_payload : dict
}.

(** The two requests [push_to_qdrant] sends; the distance is always cosine. *)
Inductive qdrant_call :=
| RecreateCollection (collection_name : str) (size : Z)
| Upsert (collection_name : str) (points : list point).

(** What a call of [push_to_qdrant] did: the requests sent, in order, and
    how the call ended. *)
Record upload := {
  calls : list qdrant_call;
  outcome : result unit
}.

Definition no_upload : upload := {| calls := []; outcome := Ok tt |}.

(** [not os.getenv(name)]: unset or empty. *)
Definition env_unset (o : option str) : bool :=
  match o with
  | Some (_ :: _) => false
  | _ => true
  end.


Section VectorStore.

(** Whether [models.PointStruct] accepts its arguments. *)
Variable valid_point : point -> bool.

(** What the service answers to a request. *)
Variable qdrant : qdrant_call -> result unit.

(** One round of the [enumerate] loop. *)
Definition make_point (idx : nat) (doc : dict) : result point :=
  vec <- py_getitem (VDict doc) (lit "embedding") ;;
  md <- py_getitem (VDict doc) (lit "metadata") ;;
  match md with
  | VDict m =>
      text <- py_getitem (VDict doc) (lit "text") ;;
      let p := {| point_id := idx; point_vector := vec;
                  point_payload := dict_set m (lit "text") text |} in
      if valid_point p then Ok p else Raise ExternalError
  | _ => Raise TypeError
  end.

Fixpoint build_points (idx : nat) (docs : list dict) : result (list point) :=
  match docs with
  | [] => Ok []
  | doc :: rest =>
      p <- make_point idx doc ;;
      ps <- build_points (S idx) rest ;;
      Ok (p :: ps)
  end.

(** [url], [api_key] and [collection_env] are the environment's
    [QDRANT_URL], [QDRANT_API_KEY] and [QDRANT_COLLECTION]. *)
Definition push_to_qdrant (url api_key collection_env : option str)
  (docs : list dict) (vector_size : Z) : upload :=
  let collection :=
    match collection_env with Some c => c | None => lit "documents" end in
  if env_unset url || env_unset api_key then no_upload
  else
    let recreate := RecreateCollection collection vector_size in
    match qdrant recreate with
    | Raise e => {| calls := [recreate]; outcome := Raise e |}
    | Ok _ =>
        match build_points 0 docs with
        | Raise e => {| calls := [recreate]; outcome := Raise e |}
        | Ok points =>
            let upsert := Upsert collection points in
            {| calls := [recreate; upsert]; outcome := qdrant upsert |}
        end
    end.

End VectorStore.

Section FullRun.

Variable get_text : str -> str.
Variable fromisoformat : str -> bool.
Variable repr_nonstr : value -> str.
Variable SentenceTransformer : str -> result st_model.
Variable embeddings_create : nat -> str -> list value -> result (list item).
Variable valid_point : point -> bool.
Variable qdrant : qdrant_call -> result unit.



End FullRun.

(** ** A sample run *)

(** Three raw documents: a complete one, one without [_id], and another
    complete one. *)
Definition raw_article (id : value) (body : string) : value :=
  VDict [(lit "_id", id);
         (lit "canonical_url", VStr (lit "/a/b"));
         (lit "website", VStr (lit "example"));
         (lit "content_elements",
          VList [VDict [(lit "type", VStr (lit "text"));
                        (lit "content", VStr (lit body))]])].

Definition sample_corpus : list value :=
  [raw_article (VStr (lit "id-1")) "first";
   raw_article VNone "second";
   raw_article (VStr (lit "id-3")) "third"].

(** The sample corpus run through the remote strategy against the sample
    collaborators. *)
Definition sample_run : result (list dict) :=
  run_pipeline entity_get_text iso_utc_format repr_placeholder
    (fun _ => Ok constant_model) reversing_service
    (Some (lit "sk-test")) sample_corpus None
    (lit "all-MiniLM-L6-v2") false (lit "openai")
    (lit "text-embedding-3-small").

Definition sample_output : list dict :=
  Eval vm_compute in
    match sample_run with
    | Ok out => out
    | Raise _ => []
    end.

(** The points of the sample output, for a store that accepts
    everything. *)
Definition sample_points : list point :=
  Eval vm_compute in
    match build_points (fun _ => true) 0 sample_output with
    | Ok points => points
    | Raise _ => []
    end.

(** ** Properties named by the specification *)

(** No markup indicator: neither [<] nor [&]. *)
Definition markup_free (s : str) : bool :=
  negb (has_char LT s) && negb (has_char AMP s).

Definition starts_hspace (s : str) : bool :=
  match s with c :: _ => is_hspace c | [] => false end.

(** No space or tab touches a newline. *)
Fixpoint nl_tight (s : str) : bool :=
  match s with
  | [] => true
  | c :: r =>
      (if is_nl c then negb (starts_hspace r)
       else if is_hspace c then negb (starts_nl r)
       else true) && nl_tight r
  end.

(** Text on which the whitespace rules of [normalize_text] have nothing
    left to do: no non-breaking space, no blank next to a newline, no
    newline at either end. *)
Definition whitespace_normal (s : str) : bool :=
  negb (has_char NBSP s) && nl_tight s &&
  negb (starts_nl s) && negb (starts_nl (rev s)).

(** The url candidate: [canonical_url], else [website_url]. *)
Definition url_candidate (doc : dict) : value :=
  py_or (dict_get doc (lit "canonical_url")) (dict_get doc (lit "website_url")).

(** The website identifier: [canonical_website], else [website]. *)
Definition website_identifier (doc : dict) : value :=
  py_or (dict_get doc (lit "canonical_website")) (dict_get doc (lit "website")).

(** *** Order of the output *)

(** An output document is the transformed document itself or the
    transformed document with an embedding attached. *)
Definition same_or_embedded (t o : dict) : Prop :=
  o = t \/ exists e, o = dict_set t (lit "embedding") e.

Definition is_dict (v : value) : bool :=
  match v with VDict _ => true | _ => false end.

(** *** What the validator rejects *)

Definition text_missing_or_blank (doc : dict) : bool :=
  match lookup doc (lit "text") with
  | Some (VStr s) => forallb is_space s
  | _ => true
  end.

(** [metadata.k]: nothing when the document has no metadata mapping. *)
Definition metadata_field (doc : dict) (k : str) : option value :=
  match lookup doc (lit "metadata") with
  | Some (VDict md) => lookup md k
  | _ => None
  end.

Definition missing_or_falsy (o : option value) : bool :=
  match o with
  | Some v => negb (truthy v)
  | None => true
  end.

(** A timestamp field that is present (bound to something other than
    [None]) and is not a string, does not end in [Z], or does not parse. *)
Definition timestamp_rejected (parses : str -> bool) (o : option value) : bool :=
  match o with
  | None | Some VNone => false
  | Some (VStr s) =>
      negb (endswith s (lit "Z")) ||
      negb (parses (replace_char_str 90%N (lit "+00:00") s))
  | Some _ => true
  end.

Definition invalid (parses : str -> bool) (doc : dict) : bool :=
  text_missing_or_blank doc ||
  missing_or_falsy (metadata_field doc (lit "external_id")) ||
  missing_or_falsy (metadata_field doc (lit "url")) ||
  existsb (fun k => timestamp_rejected parses (metadata_field doc (lit k)))
          timestamp_keys.

(** The embedding is there and is not a list of [dim] elements. *)
Definition embedding_mismatch (doc : dict) (dim : Z) : bool :=
  match lookup doc (lit "embedding") with
  | Some (VList emb) => negb (Z.of_nat (length emb) =? dim)
  | Some _ => true
  | None => false
  end.

(** The document has a metadata mapping, or no metadata at all. *)
Definition metadata_mapping (doc : dict) : bool :=
  match lookup doc (lit "metadata") with
  | None | Some (VDict _) => true
  | Some _ => false
  end.

Definition is_value_error {A} (r : result A) : bool :=
  match r with
  | Raise (ValueError _) => true
  | _ => false
  end.

(** A transformed document with one timestamp. *)
Definition sample_document (ts : value) : dict :=
  [(lit "text", VStr (lit "hello world"));
   (lit "metadata",
    VDict [(lit "url", VStr (lit "https://www.example.com/a/b"));
           (lit "external_id", VStr (lit "doc-1"));
           (lit "publish_date", ts)])].

(** *** Raw documents of the data model's shape *)

Definition is_str (v : value) : bool :=
  match v with VStr _ => true | _ => false end.

Definition str_or_none (v : value) : bool :=
  match v with VNone | VStr _ => true | _ => false end.

Definition dict_or_none (v : value) : bool :=
  match v with VNone | VDict _ => true | _ => false end.

(** A taxonomy item: an object whose labels are strings where present. *)
Definition taxonomy_item_ok (it : value) : bool :=
  match it with
  | VDict d => forallb (fun k => str_or_none (dict_get d k)) label_keys
  | _ => false
  end.

Definition taxonomy_list_ok (v : value) : bool :=
  match v with
  | VNone => true
  | VList l => forallb taxonomy_item_ok l
  | _ => false
  end.

Definition taxonomy_ok (v : value) : bool :=
  match v with
  | VNone => true
  | VDict t =>
      taxonomy_list_ok (dict_get t (lit "sections")) &&
      taxonomy_list_ok (dict_get t (lit "categories")) &&
      taxonomy_list_ok (dict_get t (lit "tags"))
  | _ => false
  end.

Definition promo_ok (v : value) : bool :=
  match v with
  | VNone => true
  | VDict p =>
      forallb (fun k => match lookup p k with
                        | None | Some (VDict _) => true
                        | Some _ => false
                        end) promo_keys
  | _ => false
  end.

(** [taxonomy], [promo_items] and [headlines] are objects where present,
    with taxonomy lists of labelled objects and promo entries that are
    objects; [canonical_url] and [website_url] are strings where present.
    Present means bound to something other than [None]. *)
Definition well_formed (doc : dict) : bool :=
  taxonomy_ok (dict_get doc (lit "taxonomy")) &&
  promo_ok (dict_get doc (lit "promo_items")) &&
  dict_or_none (dict_get doc (lit "headlines")) &&
  str_or_none (dict_get doc (lit "canonical_url")) &&
  str_or_none (dict_get doc (lit "website_url")).

(** *** Further notions *)

(** [l] is [l'] with some elements left out, the order kept. *)
Inductive subseq {A : Type} : list A -> list A -> Prop :=
| subseq_nil : subseq [] []
| subseq_skip (x : A) (l l' : list A) : subseq l l' -> subseq l (x :: l')
| subseq_keep (x : A) (l l' : list A) : subseq l l' -> subseq (x :: l) (x :: l').

(** [a == b] between hashable objects, as a set's membership test
    compares them. *)
Definition py_eqb (a b : value) : bool :=
  match py_hash a, py_hash b with
  | Ok x, Ok y => hkey_eqb x y
  | _, _ => false
  end.

Definition is_hashable (v : value) : bool :=
  match v with
  | VList _ | VDict _ => false
  | _ => true
  end.

(** No two elements are equal objects. *)
Definition pairwise_distinct (l : list value) : Prop :=
  ForallOrdPairs (fun a b => py_eqb a b = false) l.



(** [value] when it is a non-blank string, nothing otherwise. *)
Definition optional_field (v : value) : option value :=
  if nonblank_str v then Some v else None.

(** The assignments of [extract_metadata], in their order, once the
    fallible parts are computed. *)
Definition assemble_metadata (doc : dict) (title url : value)
  (sections categories tags : list value) (thumb : value) : dict :=
  let metadata := set_if_nonblank [] (lit "title") title in
  let metadata := dict_set metadata (lit "url") url in
  let metadata := dict_set metadata (lit "external_id") (dict_get doc (lit "_id")) in
  let metadata :=
    set_if_nonblank metadata (lit "publish_date") (dict_get doc (lit "publish_date")) in
  let metadata :=
    set_if_nonblank metadata (lit "datetime")
      (py_or (dict_get doc (lit "display_date")) (dict_get doc (lit "publish_date"))) in
  let metadata :=
    set_if_nonblank metadata (lit "first_publish_date")
      (dict_get doc (lit "first_publish_date")) in
  let metadata := set_if_nonblank metadata (lit "website") (website_identifier doc) in
  let metadata := dict_set metadata (lit "sections") (VList sections) in
  let metadata := dict_set metadata (lit "categories") (VList categories) in
  let metadata := dict_set metadata (lit "tags") (VList tags) in
  set_if_nonblank metadata (lit "thumb") thumb.

(** The taxonomy object that [extract_metadata] reads. *)
Definition taxonomy_of (doc : dict) : value :=
  py_or (dict_get doc (lit "taxonomy")) (VDict []).

(** A response that answers [batch] honestly, in any order: one item per
    text, the indices all different, and each item carrying the vector
    [emb] assigns to the text at its index. *)
Definition honest_response (emb : value -> list Q) (batch : list value)
  (data : list item) : Prop :=
  length data = length batch /\
  NoDup (map index data) /\
  forall it, In it data ->
    0 <= index it /\
    exists t, nth_error batch (Z.to_nat (index it)) = Some t /\
              embedding it = emb t.

(** [doc] with the vector [v] attached. *)
Definition with_embedding (doc : dict) (v : list Q) : dict :=
  dict_set doc (lit "embedding") (vector v).

(** * Proofs *)

(** ** Strings *)

Lemma str_eqb_eq (a b : str) : str_eqb a b = true <-> a = b.
Proof.
  unfold str_eqb. destruct (list_eq_dec N.eq_dec a b); split; congruence.
Qed.

Lemma str_eqb_refl (a : str) : str_eqb a a = true.
Proof. now apply str_eqb_eq. Qed.

Lemma str_eqb_neq (a b : str) : str_eqb a b = false <-> a <> b.
Proof.
  unfold str_eqb. destruct (list_eq_dec N.eq_dec a b); split; congruence.
Qed.

Lemma has_char_In (c : N) (s : str) : has_char c s = true <-> In c s.
Proof.
  unfold has_char. rewrite existsb_exists. split.
  - intros (x & Hx & E). apply N.eqb_eq in E. now subst.
  - intros H. exists c. split; [assumption | apply N.eqb_refl].
Qed.

Lemma has_char_false (c : N) (s : str) : has_char c s = false <-> ~ In c s.
Proof.
  rewrite <- has_char_In. destruct (has_char c s); split; congruence.
Qed.

Lemma lstrip_by_suffix (p : N -> bool) (s : str) :
  exists pre, s = pre ++ lstrip_by p s /\ forallb p pre = true.
Proof.
  induction s as [|c r IH]; simpl.
  - now exists [].
  - destruct (p c) eqn:E.
    + destruct IH as (pre & Hs & Hp). exists (c :: pre). simpl.
      rewrite E, Hp. split; [now f_equal | reflexivity].
    + now exists [].
Qed.

Lemma lstrip_by_head (p : N -> bool) (s : str) :
  match lstrip_by p s with c :: _ => p c = false | [] => True end.
Proof.
  induction s as [|c r IH]; simpl; [exact I|].
  destruct (p c) eqn:E; [exact IH | exact E].
Qed.

Lemma lstrip_by_fixed (p : N -> bool) (s : str) :
  match s with c :: _ => p c = false | [] => True end -> lstrip_by p s = s.
Proof. destruct s as [|c r]; simpl; [reflexivity|]. now intros ->. Qed.

Lemma lstrip_by_nil (p : N -> bool) (s : str) :
  lstrip_by p s = [] <-> forallb p s = true.
Proof.
  induction s as [|c r IH]; simpl; [tauto|].
  destruct (p c); simpl; [exact IH | split; discriminate].
Qed.

Lemma rstrip_by_prefix (p : N -> bool) (s : str) :
  exists suf, s = rstrip_by p s ++ suf /\ forallb p suf = true.
Proof.
  unfold rstrip_by.
  destruct (lstrip_by_suffix p (rev s)) as (pre & Hs & Hp).
  exists (rev pre). split.
  - rewrite <- rev_app_distr, <- Hs. symmetry. apply rev_involutive.
  - rewrite forallb_forall in *. intros x Hx. apply Hp. now apply in_rev.
Qed.

Lemma strip_by_nil (p : N -> bool) (s : str) :
  strip_by p s = [] <-> forallb p s = true.
Proof.
  unfold strip_by, rstrip_by. split.
  - intros H. apply (f_equal (@rev N)) in H. rewrite rev_involutive in H.
    simpl in H. apply lstrip_by_nil in H.
    assert (Hall : forallb p (lstrip_by p s) = true).
    { rewrite forallb_forall in *. intros x Hx. apply H. now apply in_rev in Hx. }
    pose proof (lstrip_by_head p s) as Hh.
    destruct (lstrip_by p s) as [|c r] eqn:E.
    + now apply lstrip_by_nil.
    + simpl in Hall. rewrite Hh in Hall. discriminate.
  - intros H. apply lstrip_by_nil in H. now rewrite H.
Qed.

Lemma strip_by_fixed (p : N -> bool) (s : str) :
  match s with c :: _ => p c = false | [] => True end ->
  match rev s with c :: _ => p c = false | [] => True end ->
  strip_by p s = s.
Proof.
  intros H1 H2. unfold strip_by, rstrip_by.
  rewrite (lstrip_by_fixed p s H1), (lstrip_by_fixed p (rev s) H2).
  apply rev_involutive.
Qed.

Lemma strip_by_edges (p : N -> bool) (s : str) :
  match strip_by p s with c :: _ => p c = false | [] => True end /\
  match rev (strip_by p s) with c :: _ => p c = false | [] => True end.
Proof.
  split.
  - unfold strip_by.
    destruct (rstrip_by_prefix p (lstrip_by p s)) as (suf & Hs & Hp).
    pose proof (lstrip_by_head p s) as Hh.
    destruct (rstrip_by p (lstrip_by p s)) as [|c r]; [exact I|].
    rewrite Hs in Hh. exact Hh.
  - unfold strip_by, rstrip_by. rewrite rev_involutive. apply lstrip_by_head.
Qed.

(** ** Newline collapsing *)

Lemma is_nl_eq (c : N) : is_nl c = true -> c = NL.
Proof. apply N.eqb_eq. Qed.

Lemma is_nl_not_hspace (c : N) : is_nl c = true -> is_hspace c = false.
Proof. intros H. apply is_nl_eq in H. now subst. Qed.

Lemma starts_hspace_lstrip (s : str) :
  starts_hspace (lstrip_by is_hspace s) = false.
Proof.
  pose proof (lstrip_by_head is_hspace s) as H.
  destruct (lstrip_by is_hspace s); [reflexivity | exact H].
Qed.

Lemma nl_tight_tail (c : N) (r : str) : nl_tight (c :: r) = true -> nl_tight r = true.
Proof. simpl. intros H. now apply andb_prop in H. Qed.

Lemma nl_tight_app_r (a b : str) : nl_tight (a ++ b) = true -> nl_tight b = true.
Proof.
  induction a as [|c r IH]; simpl; [trivial|].
  intros H. apply andb_prop in H. now apply IH.
Qed.

Lemma nl_tight_app_l (a b : str) : nl_tight (a ++ b) = true -> nl_tight a = true.
Proof.
  induction a as [|c r IH]; simpl; [reflexivity|].
  intros H. apply andb_prop in H. destruct H as [Hc Hr].
  rewrite (IH Hr), andb_true_r.
  destruct r as [|d r']; simpl in *.
  - destruct (is_nl c); [reflexivity|]. now destruct (is_hspace c).
  - exact Hc.
Qed.

Lemma nl_tight_lstrip (p : N -> bool) (s : str) :
  nl_tight s = true -> nl_tight (lstrip_by p s) = true.
Proof.
  intros H. destruct (lstrip_by_suffix p s) as (pre & Hs & _).
  rewrite Hs in H. now apply nl_tight_app_r in H.
Qed.

Lemma nl_tight_strip (p : N -> bool) (s : str) :
  nl_tight s = true -> nl_tight (strip_by p s) = true.
Proof.
  intros H. unfold strip_by.
  destruct (rstrip_by_prefix p (lstrip_by p s)) as (suf & Hs & _).
  apply (nl_tight_lstrip p) in H. rewrite Hs in H.
  now apply nl_tight_app_l in H.
Qed.

Lemma collapse_newlines_fixed (s : str) :
  nl_tight s = true -> collapse_newlines s = s.
Proof.
  induction s as [|c r IH]; simpl; [reflexivity|].
  intros H. apply andb_prop in H. destruct H as [Hc Hr].
  rewrite (IH Hr).
  destruct (is_nl c) eqn:En.
  - apply is_nl_eq in En. subst c. f_equal.
    apply lstrip_by_fixed. destruct r; [exact I|].
    simpl in Hc. now apply negb_true_iff in Hc.
  - destruct (is_hspace c); [|reflexivity].
    apply negb_true_iff in Hc. now rewrite Hc.
Qed.

Lemma collapse_newlines_tight (s : str) : nl_tight (collapse_newlines s) = true.
Proof.
  induction s as [|c r IH]; simpl; [reflexivity|].
  destruct (is_nl c) eqn:En.
  - simpl. rewrite starts_hspace_lstrip. simpl.
    now apply nl_tight_lstrip.
  - destruct (is_hspace c) eqn:Eh.
    + destruct (starts_nl (collapse_newlines r)) eqn:Es; [exact IH|].
      simpl. now rewrite En, Eh, Es, IH.
    + simpl. now rewrite En, Eh, IH.
Qed.

Lemma lstrip_by_In (p : N -> bool) (c : N) (s : str) :
  In c (lstrip_by p s) -> In c s.
Proof.
  destruct (lstrip_by_suffix p s) as (pre & Hs & _). intros H.
  rewrite Hs. apply in_or_app. now right.
Qed.

Lemma strip_by_In (p : N -> bool) (c : N) (s : str) :
  In c (strip_by p s) -> In c s.
Proof.
  unfold strip_by. intros H. apply (lstrip_by_In p).
  destruct (rstrip_by_prefix p (lstrip_by p s)) as (suf & Hs & _).
  rewrite Hs. apply in_or_app. now left.
Qed.

Lemma collapse_newlines_In (c : N) (s : str) :
  In c (collapse_newlines s) -> In c s.
Proof.
  induction s as [|d r IH]; simpl; [trivial|].
  destruct (is_nl d) eqn:En.
  - apply is_nl_eq in En. subst d. simpl.
    intros [H | H]; [now left | right]. apply IH. now apply lstrip_by_In in H.
  - destruct (is_hspace d).
    + destruct (starts_nl (collapse_newlines r)).
      * intros H. right. now apply IH.
      * simpl. intros [H | H]; [now left | right; now apply IH].
    + simpl. intros [H | H]; [now left | right; now apply IH].
Qed.

Lemma replace_char_In (c d x : N) (s : str) :
  In x (replace_char c d s) -> x = d \/ (x <> c /\ In x s).
Proof.
  unfold replace_char. rewrite in_map_iff. intros (y & Hy & Hin).
  destruct (N.eqb y c) eqn:E.
  - now left.
  - right. subst y. split; [now apply N.eqb_neq | assumption].
Qed.

Lemma replace_char_fixed (c d : N) (s : str) :
  has_char c s = false -> replace_char c d s = s.
Proof.
  intros H. apply has_char_false in H. unfold replace_char.
  induction s as [|x r IH]; simpl; [reflexivity|].
  destruct (N.eqb x c) eqn:E.
  - apply N.eqb_eq in E. subst x. exfalso. apply H. now left.
  - f_equal. apply IH. intros Hin. apply H. now right.
Qed.

Lemma starts_nl_head (s : str) :
  starts_nl s = false <-> match s with c :: _ => is_nl c = false | [] => True end.
Proof. destruct s; simpl; tauto. Qed.

(** ** TextNormalizer *)

Section NormalizeFacts.

Variable get_text : str -> str.

Lemma strip_html_markup_free (t : str) :
  markup_free t = true -> strip_html get_text t = t.
Proof.
  unfold markup_free, strip_html. intros H.
  destruct t as [|c r]; [reflexivity|]. simpl is_empty. cbv iota.
  now rewrite H.
Qed.

Lemma markup_free_replace (t : str) :
  markup_free t = true -> markup_free (replace_char NBSP SPACE t) = true.
Proof.
  unfold markup_free. intros H. apply andb_prop in H. destruct H as [H1 H2].
  apply negb_true_iff in H1, H2. apply has_char_false in H1, H2.
  apply andb_true_intro. split; apply negb_true_iff, has_char_false;
    intros Hin; apply replace_char_In in Hin;
    destruct Hin as [E | [_ Hin]]; try discriminate E; tauto.
Qed.

(** On markup-free text only the whitespace rules act. *)
Lemma normalize_str_markup_free (t : str) :
  markup_free t = true ->
  normalize_str get_text t =
  strip_by is_nl (collapse_newlines (replace_char NBSP SPACE t)).
Proof.
  intros H. unfold normalize_str.
  now rewrite (strip_html_markup_free _ (markup_free_replace _ H)).
Qed.

Lemma whitespace_pass_fixed (t : str) :
  whitespace_normal t = true ->
  strip_by is_nl (collapse_newlines (replace_char NBSP SPACE t)) = t.
Proof.
  unfold whitespace_normal. intros H.
  repeat (apply andb_prop in H; destruct H as [H ?]).
  apply negb_true_iff in H, H0, H1.
  rewrite (replace_char_fixed _ _ _ H), (collapse_newlines_fixed _ H2).
  apply strip_by_fixed; now apply starts_nl_head.
Qed.

Lemma whitespace_pass_normal (u : str) :
  has_char NBSP u = false ->
  whitespace_normal (strip_by is_nl (collapse_newlines u)) = true.
Proof.
  intros H. unfold whitespace_normal.
  destruct (strip_by_edges is_nl (collapse_newlines u)) as [E1 E2].
  apply starts_nl_head in E1, E2. rewrite E1, E2.
  rewrite (nl_tight_strip _ _ (collapse_newlines_tight u)).
  replace (has_char NBSP (strip_by is_nl (collapse_newlines u))) with false;
    [reflexivity|].
  symmetry. apply has_char_false. intros Hin.
  apply strip_by_In, collapse_newlines_In in Hin.
  now apply has_char_false in H.
Qed.

Lemma has_char_replaced (t : str) :
  has_char NBSP (replace_char NBSP SPACE t) = false.
Proof.
  apply has_char_false. intros Hin. apply replace_char_In in Hin.
  destruct Hin as [E | [E _]]; [discriminate E | now apply E].
Qed.

(** Text that is markup-free and whitespace-normal is a fixed point. *)
Lemma normalize_str_fixed (r : str) :
  markup_free r = true -> whitespace_normal r = true ->
  normalize_str get_text r = r.
Proof.
  intros Hm Hw. rewrite (normalize_str_markup_free _ Hm).
  now apply whitespace_pass_fixed.
Qed.

(** The result of [normalize_text] carries no blank next to a newline
    and no newline at its ends, whatever the HTML parser returned. *)
Lemma normalize_str_shape (t : str) :
  has_char NBSP (normalize_str get_text t) = false ->
  whitespace_normal (normalize_str get_text t) = true.
Proof.
  unfold normalize_str.
  set (u := strip_html get_text (replace_char NBSP SPACE t)).
  intros H. unfold whitespace_normal.
  destruct (strip_by_edges is_nl (collapse_newlines u)) as [E1 E2].
  apply starts_nl_head in E1, E2.
  now rewrite H, E1, E2, (nl_tight_strip _ _ (collapse_newlines_tight u)).
Qed.

(** C7 (as amended): on text without markup indicators [strip_html]
    returns its argument as it is, and [normalize_text] returns the text
    unchanged exactly when the text has no non-breaking space, no space
    or tab next to a newline, and no newline at either end. *)
Theorem normalize_markup_free_unchanged (t : str) :
  markup_free t = true ->
  strip_html get_text t = t /\
  (normalize_str get_text t = t <-> whitespace_normal t = true).
Proof.
  intros Hm. split; [now apply strip_html_markup_free|].
  rewrite (normalize_str_markup_free _ Hm). split.
  - intros E. rewrite <- E. apply whitespace_pass_normal, has_char_replaced.
  - apply whitespace_pass_fixed.
Qed.

(** C8 (as amended): normalising twice is normalising once whenever the
    first result carries no markup indicator and no non-breaking space,
    and in particular for every text without markup indicators. *)
Theorem normalize_idempotent_without_markup (t : str) :
  (markup_free (normalize_str get_text t) = true ->
   has_char NBSP (normalize_str get_text t) = false ->
   normalize_str get_text (normalize_str get_text t) = normalize_str get_text t) /\
  (markup_free t = true ->
   normalize_str get_text (normalize_str get_text t) = normalize_str get_text t).
Proof.
  split.
  - intros Hm Hn. apply normalize_str_fixed; [assumption|].
    now apply normalize_str_shape.
  - intros Hm.
    pose proof (normalize_str_markup_free _ Hm) as E.
    assert (Hin : forall c, In c (normalize_str get_text t) ->
                            c = SPACE \/ (c <> NBSP /\ In c t)).
    { intros c Hc. rewrite E in Hc.
      now apply strip_by_In, collapse_newlines_In, replace_char_In in Hc. }
    unfold markup_free in Hm. apply andb_prop in Hm. destruct Hm as [H1 H2].
    apply negb_true_iff in H1, H2. apply has_char_false in H1, H2.
    assert (Hn : has_char NBSP (normalize_str get_text t) = false).
    { apply has_char_false. intros Hc. apply Hin in Hc.
      destruct Hc as [Hc | [Hc _]]; [discriminate Hc | now apply Hc]. }
    apply normalize_str_fixed; [|now apply normalize_str_shape].
    unfold markup_free. apply andb_true_intro.
    split; apply negb_true_iff, has_char_false; intros Hc; apply Hin in Hc;
      destruct Hc as [Hc | [_ Hc]]; try discriminate Hc; tauto.
Qed.

End NormalizeFacts.

(** C7, witness: [hello world], a markup-free text, with the sample parser. *)
Lemma normalize_markup_free_unchanged_witness :
  strip_html entity_get_text (lit "hello world") = lit "hello world" /\
  (normalize_str entity_get_text (lit "hello world") = lit "hello world" <->
   whitespace_normal (lit "hello world") = true).
Proof.
  apply (normalize_markup_free_unchanged entity_get_text (lit "hello world")).
  reflexivity.
Defined.

(** C7, counterexample: [a \n b] (a blank on each side of a newline) has
    no markup indicator, and is normalised to [a\nb]. *)
Lemma normalize_markup_free_changed :
  markup_free (lit "a " ++ NL :: lit " b") = true /\
  normalize_str entity_get_text (lit "a " ++ NL :: lit " b") = lit "a" ++ NL :: lit "b" /\
  str_eqb (normalize_str entity_get_text (lit "a " ++ NL :: lit " b"))
          (lit "a " ++ NL :: lit " b") = false.
Proof. repeat split; vm_compute; reflexivity. Qed.

(** C8, witness: [&quot;hi&quot;], which the sample parser decodes to text
    without markup indicators, and a markup-free text with blanks around
    a newline. *)
Lemma normalize_idempotent_without_markup_witness :
  normalize_str entity_get_text (normalize_str entity_get_text (lit "&quot;hi&quot;"))
  = normalize_str entity_get_text (lit "&quot;hi&quot;") /\
  normalize_str entity_get_text
    (normalize_str entity_get_text (NL :: lit "a " ++ NL :: lit " b"))
  = normalize_str entity_get_text (NL :: lit "a " ++ NL :: lit " b").
Proof.
  split.
  - exact (proj1 (normalize_idempotent_without_markup entity_get_text
                    (lit "&quot;hi&quot;")) eq_refl eq_refl).
  - exact (proj2 (normalize_idempotent_without_markup entity_get_text
                    (NL :: lit "a " ++ NL :: lit " b")) eq_refl).
Defined.

(** C8, counterexample: the parser turns [&amp;amp;] into [&amp;], which a
    second normalisation turns into [&]. *)
Lemma normalize_not_idempotent :
  normalize_str entity_get_text (lit "&amp;amp;") = lit "&amp;" /\
  normalize_str entity_get_text (normalize_str entity_get_text (lit "&amp;amp;"))
    = lit "&" /\
  str_eqb (normalize_str entity_get_text
             (normalize_str entity_get_text (lit "&amp;amp;")))
          (normalize_str entity_get_text (lit "&amp;amp;")) = false.
Proof. repeat split; vm_compute; reflexivity. Qed.

(** ** Dictionaries *)

Lemma lookup_dict_set (d : dict) (k k' : str) (v : value) :
  lookup (dict_set d k v) k' = if str_eqb k k' then Some v else lookup d k'.
Proof.
  induction d as [|[k0 v0] r IH]; simpl.
  - reflexivity.
  - destruct (str_eqb k0 k) eqn:E0; simpl.
    + apply str_eqb_eq in E0. subst k0.
      now destruct (str_eqb k k').
    + destruct (str_eqb k0 k') eqn:E1; [|exact IH].
      apply str_eqb_eq in E1. subst k0.
      destruct (str_eqb k k') eqn:E2; [|reflexivity].
      apply str_eqb_eq in E2. subst k'. rewrite str_eqb_refl in E0. discriminate.
Qed.

Lemma lookup_set_if_nonblank (d : dict) (k k' : str) (v : value) :
  str_eqb k k' = false -> lookup (set_if_nonblank d k v) k' = lookup d k'.
Proof.
  intros E. unfold set_if_nonblank. destruct (nonblank_str v); [|reflexivity].
  now rewrite lookup_dict_set, E.
Qed.

(** Key tests between literals are decided by evaluation. *)
Ltac eval_key_tests :=
  repeat match goal with
    | |- context [str_eqb (lit ?a) (lit ?b)] =>
        let r := eval vm_compute in (str_eqb (lit a) (lit b)) in
        change (str_eqb (lit a) (lit b)) with r
    end.

(** A successful sequence of steps: each step succeeded. *)
Ltac bind_inv H :=
  repeat match type of H with
    | bind ?m _ = Ok _ =>
        let E := fresh "E" in
        destruct m eqn:E; [simpl in H | discriminate H]
    end.

(** ** MetadataExtractor *)

Section MetadataFacts.

Variable repr_nonstr : value -> str.

(** C9: with a non-empty string [c] as the url candidate, [build_url]
    returns [c] itself when it starts with [http]; otherwise, when a
    website identifier is present, [https://www.{website}.com{c}];
    otherwise [c].  The relative candidate [/a/b] with website [example]
    gives [https://www.example.com/a/b]. *)
Theorem build_url_cases (doc : dict) (c : str) :
  url_candidate doc = VStr c -> c <> [] ->
  (startswith c (lit "http") = true ->
   build_url repr_nonstr doc = Ok (VStr c)) /\
  (startswith c (lit "http") = false ->
   truthy (website_identifier doc) = true ->
   build_url repr_nonstr doc =
   Ok (VStr (lit "https://www."
               ++ format_value repr_nonstr (website_identifier doc)
               ++ lit ".com" ++ c))) /\
  (startswith c (lit "http") = false ->
   truthy (website_identifier doc) = false ->
   build_url repr_nonstr doc = Ok (VStr c)) /\
  build_url repr_nonstr
    [(lit "canonical_url", VStr (lit "/a/b")); (lit "website", VStr (lit "example"))]
  = Ok (VStr (lit "https://www.example.com/a/b")).
Proof.
  intros Hc Hne. unfold build_url.
  fold (url_candidate doc). fold (website_identifier doc). rewrite Hc.
  assert (Ht : truthy (VStr c) = true) by (destruct c; [congruence | reflexivity]).
  rewrite Ht. simpl negb. cbv iota.
  repeat split.
  - now intros ->.
  - now intros -> ->.
  - now intros -> ->.
Qed.

(** The two keys that [extract_metadata] always assigns. *)
Lemma extract_metadata_assigned (doc md : dict) :
  extract_metadata repr_nonstr doc = Ok md ->
  (exists u, build_url repr_nonstr doc = Ok u /\ lookup md (lit "url") = Some u) /\
  lookup md (lit "external_id") = Some (dict_get doc (lit "_id")).
Proof.
  unfold extract_metadata. intros H. bind_inv H.
  injection H as <-. split; [eexists; split; [reflexivity|]|];
    repeat (first [ rewrite lookup_set_if_nonblank by reflexivity
                  | rewrite lookup_dict_set; eval_key_tests; cbv iota ]);
    reflexivity.
Qed.

Lemma build_url_absent (doc : dict) :
  lookup doc (lit "canonical_url") = None ->
  lookup doc (lit "website_url") = None ->
  build_url repr_nonstr doc = Ok VNone.
Proof.
  intros H1 H2. unfold build_url, dict_get, py_or. now rewrite H1, H2.
Qed.

(** C4 (as amended): when extraction succeeds the Metadata always has
    the keys [url] and [external_id]; for a document with neither
    [canonical_url] nor [website_url] the [url] key is bound to [None],
    and for a document without [_id] the [external_id] key is bound to
    [None]. *)
Theorem extract_metadata_unresolved_keys (doc md : dict) :
  extract_metadata repr_nonstr doc = Ok md ->
  dict_has md (lit "url") = true /\
  dict_has md (lit "external_id") = true /\
  (lookup doc (lit "canonical_url") = None ->
   lookup doc (lit "website_url") = None ->
   lookup md (lit "url") = Some VNone) /\
  (lookup doc (lit "_id") = None ->
   lookup md (lit "external_id") = Some VNone).
Proof.
  intros H. apply extract_metadata_assigned in H.
  destruct H as [(u & Hu & Hl) He]. unfold dict_has. rewrite Hl, He.
  repeat split.
  - intros H1 H2. rewrite (build_url_absent _ H1 H2) in Hu. congruence.
  - intros H1. unfold dict_get. now rewrite H1.
Qed.

End MetadataFacts.

(** C9, witness: the absolute candidate [https://example.com/x]. *)
Lemma build_url_cases_witness :
  build_url repr_placeholder
    [(lit "website_url", VStr (lit "https://example.com/x"));
     (lit "website", VStr (lit "example"))]
  = Ok (VStr (lit "https://example.com/x")).
Proof.
  refine (proj1 (build_url_cases repr_placeholder
    [(lit "website_url", VStr (lit "https://example.com/x"));
     (lit "website", VStr (lit "example"))]
    (c := lit "https://example.com/x") eq_refl _) eq_refl).
  discriminate.
Defined.

(** C4, witness: a document with a headline only. *)
Lemma extract_metadata_unresolved_keys_witness :
  lookup [(lit "title", VStr (lit "News")); (lit "url", VNone);
          (lit "external_id", VNone); (lit "sections", VList []);
          (lit "categories", VList []); (lit "tags", VList [])]
         (lit "url") = Some VNone.
Proof.
  refine (proj1 (proj2 (proj2 (extract_metadata_unresolved_keys repr_placeholder
    [(lit "headlines", VDict [(lit "basic", VStr (lit "News"))])] _)))
    eq_refl eq_refl).
  reflexivity.
Defined.

(** C4, counterexample: for the empty document the Metadata has the keys
    [url] and [external_id], each bound to [None]. *)
Lemma extract_metadata_keeps_unresolved_keys :
  extract_metadata repr_placeholder [] =
  Ok [(lit "url", VNone); (lit "external_id", VNone);
      (lit "sections", VList []); (lit "categories", VList []);
      (lit "tags", VList [])] /\
  dict_has [(lit "url", VNone); (lit "external_id", VNone);
            (lit "sections", VList []); (lit "categories", VList []);
            (lit "tags", VList [])] (lit "url") = true.
Proof. split; reflexivity. Qed.

(** ** Totality of extraction on well-formed documents *)

Lemma first_label_str (d : dict) (keys : list str) :
  forallb (fun k => str_or_none (dict_get d k)) keys = true ->
  forallb is_str (first_label d keys) = true.
Proof.
  induction keys as [|k r IH]; simpl; [reflexivity|].
  intros H. apply andb_prop in H. destruct H as [Hk Hr].
  destruct (dict_get d k) eqn:E; simpl in *; try discriminate; auto.
  destruct (is_empty s); simpl; auto.
Qed.

Lemma mapM_item_label (l : list value) :
  forallb taxonomy_item_ok l = true ->
  exists names, mapM item_label l = Ok names /\
                forallb is_str (List.concat names) = true.
Proof.
  induction l as [|it r IH]; simpl.
  - now exists [].
  - intros H. apply andb_prop in H. destruct H as [Hi Hr].
    destruct (IH Hr) as (names & E & Hn). rewrite E.
    destruct it; cbn [taxonomy_item_ok] in Hi; try discriminate Hi.
    cbn [item_label bind]. eexists. split; [reflexivity|]. cbn [List.concat].
    rewrite forallb_app, Hn, (first_label_str _ _ Hi). reflexivity.
Qed.

Lemma collect_names_ok (v : value) :
  taxonomy_list_ok v = true ->
  exists names, collect_names (py_or v (VList [])) = Ok names /\
                forallb is_str names = true.
Proof.
  intros H.
  assert (exists l, py_or v (VList []) = VList l /\ forallb taxonomy_item_ok l = true)
    as (l & -> & Hl).
  { destruct v; simpl in H; try discriminate.
    - now exists [].
    - unfold py_or. simpl. destruct l; simpl; eauto. }
  unfold collect_names. simpl.
  destruct (mapM_item_label _ Hl) as (names & -> & Hn). simpl. eauto.
Qed.

Lemma dedupe_loop_ok (seq : list value) :
  forallb is_str seq = true ->
  forall seen, exists out, dedupe_loop seen seq = Ok out.
Proof.
  induction seq as [|it r IH]; simpl; intros H seen; [eauto|].
  apply andb_prop in H. destruct H as [Hi Hr].
  destruct it; try discriminate Hi.
  destruct (negb (truthy (VStr s))); [apply (IH Hr)|]. simpl.
  destruct (existsb (hkey_eqb (HStr s)) seen); [apply (IH Hr)|].
  destruct (IH Hr (HStr s :: seen)) as (out & ->). simpl. eauto.
Qed.

Lemma mapM_lstrip_at_ok (names : list value) :
  forallb is_str names = true ->
  exists out, mapM lstrip_at names = Ok out /\ forallb is_str out = true.
Proof.
  induction names as [|it r IH]; simpl; intros H; [now exists []|].
  apply andb_prop in H. destruct H as [Hi Hr].
  destruct it; try discriminate Hi. simpl.
  destruct (IH Hr) as (out & -> & Ho). simpl. eexists. split; [reflexivity|].
  simpl. exact Ho.
Qed.

Lemma find_thumb_ok (p : dict) (keys : list str) :
  forallb (fun k => match lookup p k with
                    | None | Some (VDict _) => true
                    | Some _ => false
                    end) keys = true ->
  exists thumb, find_thumb (VDict p) keys = Ok thumb.
Proof.
  induction keys as [|k r IH]; simpl; intros H; [eauto|].
  apply andb_prop in H. destruct H as [Hk Hr].
  cbn [py_contains bind py_getitem]. unfold dict_has.
  destruct (lookup p k) as [v|] eqn:E; [|auto].
  destruct v; try discriminate Hk. cbn [bind py_get].
  destruct (truthy (dict_get d (lit "url"))) eqn:Et; [|auto].
  cbn [py_getitem]. unfold dict_get in Et.
  destruct (lookup d (lit "url")); [eauto | discriminate Et].
Qed.

Section ExtractionFacts.

Variable repr_nonstr : value -> str.

Lemma build_url_ok (doc : dict) :
  str_or_none (dict_get doc (lit "canonical_url")) = true ->
  str_or_none (dict_get doc (lit "website_url")) = true ->
  exists u, build_url repr_nonstr doc = Ok u.
Proof.
  intros H1 H2. unfold build_url.
  assert (Hc : str_or_none (url_candidate doc) = true).
  { unfold url_candidate, py_or.
    now destruct (truthy (dict_get doc (lit "canonical_url"))). }
  fold (url_candidate doc). fold (website_identifier doc).
  destruct (url_candidate doc); try discriminate Hc; simpl; [eauto|].
  destruct (negb (negb (is_empty s))); [eauto|].
  destruct (startswith s (lit "http")); [eauto|].
  destruct (truthy (website_identifier doc)); eauto.
Qed.

(** C3 (as amended): on every well-formed raw document
    [extract_metadata] returns a Metadata mapping and does not raise. *)
Theorem extract_metadata_total_on_well_formed (doc : dict) :
  well_formed doc = true ->
  exists md, extract_metadata repr_nonstr doc = Ok md.
Proof.
  unfold well_formed. intros H.
  repeat (apply andb_prop in H; destruct H as [H ?]).
  rename H into Htax, H3 into Hpromo, H2 into Hhead, H1 into Hc, H0 into Hw.
  unfold extract_metadata.
  assert (exists t, py_or (dict_get doc (lit "taxonomy")) (VDict []) = VDict t /\
                    taxonomy_ok (VDict t) = true) as (t & -> & Ht).
  { destruct (dict_get doc (lit "taxonomy")); try discriminate Htax.
    - now exists [].
    - unfold py_or. simpl. destruct d; simpl; eauto. }
  simpl in Ht. repeat (apply andb_prop in Ht; destruct Ht as [Ht ?]).
  cbn [py_get bind].
  destruct (collect_names_ok _ Ht) as (sn & -> & Hsn). cbn [bind].
  destruct (dedupe_loop_ok _ Hsn []) as (sections & Es).
  unfold dedupe_preserve. rewrite Es. cbn [bind].
  destruct (collect_names_ok _ H0) as (cn & -> & Hcn). cbn [bind].
  destruct (dedupe_loop_ok _ Hcn []) as (categories & ->). cbn [bind].
  destruct (collect_names_ok _ H) as (tn & -> & Htn). cbn [bind].
  destruct (mapM_lstrip_at_ok _ Htn) as (ts & -> & Hts). cbn [bind].
  destruct (dedupe_loop_ok _ Hts []) as (tags & ->). cbn [bind].
  assert (exists thumb,
           find_thumb (py_or (dict_get doc (lit "promo_items")) (VDict [])) promo_keys
           = Ok thumb) as (thumb & ->).
  { destruct (dict_get doc (lit "promo_items")); try discriminate Hpromo.
    - simpl. eauto.
    - unfold py_or. destruct (truthy (VDict d)).
      + now apply find_thumb_ok.
      + simpl. eauto. }
  cbn [bind].
  assert (exists title,
           py_get (py_or (dict_get doc (lit "headlines")) (VDict [])) (lit "basic")
           = Ok title) as (title & ->).
  { destruct (dict_get doc (lit "headlines")); try discriminate Hhead.
    - simpl. eauto.
    - unfold py_or. destruct (truthy (VDict d)); simpl; eauto. }
  cbn [bind].
  destruct (build_url_ok _ Hc Hw) as (u & ->). cbn [bind]. eauto.
Qed.

End ExtractionFacts.

(** C3, witness: a document with a section, a tag and a thumbnail. *)
Lemma extract_metadata_total_on_well_formed_witness :
  exists md,
    extract_metadata repr_placeholder
      [(lit "taxonomy",
        VDict [(lit "sections", VList [VDict [(lit "name", VStr (lit "News"))]]);
               (lit "tags", VList [VDict [(lit "slug", VStr (lit "@vote"))]])]);
       (lit "promo_items",
        VDict [(lit "basic", VDict [(lit "url", VStr (lit "https://img/x.png"))])]);
       (lit "canonical_url", VStr (lit "/a/b"))]
    = Ok md.
Proof.
  apply (extract_metadata_total_on_well_formed repr_placeholder). reflexivity.
Defined.

(** C3, counterexample: a numeric [canonical_url] has no [startswith]. *)
Lemma extract_metadata_raises :
  extract_metadata repr_placeholder [(lit "canonical_url", VInt 5)]
  = Raise AttributeError.
Proof. reflexivity. Qed.

(** ** DocumentValidator *)

Lemma succeeds_bind {A B} (m : result A) (k : A -> result B) :
  succeeds (bind m k) =
  match m with Ok a => succeeds (k a) | Raise _ => false end.
Proof. now destruct m. Qed.

Lemma succeeds_forM_ {A} (f : A -> result unit) (l : list A) :
  succeeds (forM_ f l) = forallb (fun a => succeeds (f a)) l.
Proof.
  induction l as [|a r IH]; simpl; [reflexivity|].
  rewrite succeeds_bind. destruct (f a); simpl; [exact IH | reflexivity].
Qed.

Lemma value_error_bind {A B} (m : result A) (k : A -> result B) :
  succeeds m || is_value_error m = true ->
  (forall a, succeeds (k a) || is_value_error (k a) = true) ->
  succeeds (bind m k) || is_value_error (bind m k) = true.
Proof. destruct m; simpl; auto. Qed.

Lemma value_error_forM_ {A} (f : A -> result unit) (l : list A) :
  (forall a, succeeds (f a) || is_value_error (f a) = true) ->
  succeeds (forM_ f l) || is_value_error (forM_ f l) = true.
Proof.
  intros H. induction l as [|a r IH]; simpl; [reflexivity|].
  apply value_error_bind; auto.
Qed.

Lemma blank_strip (s : str) : is_empty (strip s) = forallb is_space s.
Proof.
  unfold strip. destruct (forallb is_space s) eqn:F.
  - apply strip_by_nil in F. now rewrite F.
  - destruct (strip_by is_space s) eqn:E; [|reflexivity].
    apply strip_by_nil in E. congruence.
Qed.

Section ValidatorFacts.

Variable fromisoformat : str -> bool.

Lemma check_text_spec (doc : dict) :
  succeeds (check_text doc) = negb (text_missing_or_blank doc).
Proof.
  unfold check_text, text_missing_or_blank, dict_get.
  destruct (lookup doc (lit "text")) as [[]|]; try reflexivity.
  rewrite blank_strip. destruct (forallb is_space s); reflexivity.
Qed.

Lemma check_required_spec (md : dict) (key : string) :
  succeeds (check_required (VDict md) key) =
  negb (missing_or_falsy (lookup md (lit key))).
Proof.
  unfold check_required. cbn [py_get bind]. unfold dict_get.
  destruct (lookup md (lit key)) as [v|]; [|reflexivity].
  cbn [missing_or_falsy]. destruct (truthy v); reflexivity.
Qed.

Lemma check_timestamp_spec (md : dict) (key : string) :
  succeeds (check_timestamp fromisoformat (VDict md) key) =
  negb (timestamp_rejected fromisoformat (lookup md (lit key))).
Proof.
  unfold check_timestamp. cbn [py_get bind]. unfold dict_get.
  destruct (lookup md (lit key)) as [[]|]; try reflexivity.
  cbn [timestamp_rejected].
  destruct (endswith s (lit "Z")); [|reflexivity]. cbn [negb orb].
  destruct (fromisoformat _); reflexivity.
Qed.

(** The metadata mapping that [validate_output] reads. *)
Lemma metadata_cases (doc : dict) :
  (exists md, dict_get_default doc (lit "metadata") (VDict []) = VDict md /\
              forall k, metadata_field doc k = lookup md k) \/
  ((forall k, py_get (dict_get_default doc (lit "metadata") (VDict [])) k
              = Raise AttributeError) /\
   (forall k, metadata_field doc k = None) /\
   metadata_mapping doc = false).
Proof.
  unfold dict_get_default, metadata_field, metadata_mapping.
  destruct (lookup doc (lit "metadata")) as [[]|];
    try (right; repeat split; reflexivity).
  - left. eexists. split; [reflexivity|]. reflexivity.
  - left. exists []. split; reflexivity.
Qed.

Lemma validate_output_succeeds (doc : dict) :
  succeeds (validate_output fromisoformat doc None) =
  negb (invalid fromisoformat doc).
Proof.
  unfold validate_output, invalid.
  rewrite succeeds_bind. pose proof (check_text_spec doc) as Ht.
  destruct (check_text doc); simpl in Ht;
    destruct (text_missing_or_blank doc); try discriminate Ht; [|reflexivity].
  cbn [orb].
  destruct (metadata_cases doc) as [(md & -> & Hf) | (Hr & Hf & _)].
  - rewrite !Hf. rewrite succeeds_bind.
    pose proof (succeeds_forM_ (check_required (VDict md)) required_keys) as Hq.
    cbn [required_keys forallb] in Hq. rewrite !check_required_spec in Hq.
    destruct (forM_ (check_required (VDict md)) required_keys);
      cbn [succeeds] in Hq.
    + rewrite andb_true_r in Hq. symmetry in Hq.
      apply andb_prop in Hq. destruct Hq as [Hq1 Hq2].
      apply negb_true_iff in Hq1, Hq2. rewrite Hq1, Hq2. cbn [orb].
      rewrite succeeds_bind.
      pose proof (succeeds_forM_ (check_timestamp fromisoformat (VDict md))
                    timestamp_keys) as Hs.
      cbn [timestamp_keys forallb] in Hs. rewrite !check_timestamp_spec in Hs.
      cbn [timestamp_keys existsb]. rewrite !Hf.
      destruct (forM_ (check_timestamp fromisoformat (VDict md)) timestamp_keys);
        cbn [succeeds] in Hs; cbn [bind check_embedding succeeds];
        repeat match type of Hs with
          | context [timestamp_rejected ?p ?o] =>
              destruct (timestamp_rejected p o)
          end; try discriminate Hs; reflexivity.
    + rewrite andb_true_r in Hq. symmetry in Hq.
      apply andb_false_iff in Hq.
      destruct Hq as [Hq | Hq]; apply negb_false_iff in Hq; rewrite Hq;
        [reflexivity | now rewrite orb_true_r].
  - rewrite !Hf. cbn [missing_or_falsy orb].
    cbn [required_keys forM_]. unfold check_required at 1. now rewrite Hr.
Qed.

(** The embedding check comes last and reads nothing the other checks
    depend on. *)
Lemma validate_output_split (doc : dict) (dim : option Z) :
  validate_output fromisoformat doc dim =
  (validate_output fromisoformat doc None ;;; check_embedding doc dim).
Proof.
  unfold validate_output.
  destruct (check_text doc); [|reflexivity]. cbn [bind].
  destruct (forM_ _ required_keys); [|reflexivity]. cbn [bind].
  destruct (forM_ _ timestamp_keys); reflexivity.
Qed.

Lemma check_embedding_spec (doc : dict) (dim : Z) :
  dim <> 0 ->
  check_embedding doc (Some dim) =
  if embedding_mismatch doc dim
  then Raise (ValueError "Embedding dimension mismatch")
  else Ok tt.
Proof.
  intros Hd. apply Z.eqb_neq in Hd.
  unfold check_embedding, embedding_mismatch, dict_has, dict_get.
  rewrite Hd. cbn [negb andb].
  destruct (lookup doc (lit "embedding")) as [[]|]; try reflexivity.
  now destruct (Z.of_nat (length l) =? dim).
Qed.

Lemma check_embedding_value_error (doc : dict) (dim : option Z) :
  succeeds (check_embedding doc dim) || is_value_error (check_embedding doc dim)
  = true.
Proof.
  unfold check_embedding. destruct dim as [dim|]; [|reflexivity].
  destruct (negb (dim =? 0) && dict_has doc (lit "embedding")); [|reflexivity].
  destruct (dict_get doc (lit "embedding")); try reflexivity.
  now destruct (Z.of_nat (length l) =? dim).
Qed.

(** With a metadata mapping (or none at all) every failure is a
    [ValueError]. *)
Lemma validate_output_value_error (doc : dict) (dim : option Z) :
  metadata_mapping doc = true ->
  succeeds (validate_output fromisoformat doc dim) ||
  is_value_error (validate_output fromisoformat doc dim) = true.
Proof.
  intros Hm. unfold validate_output.
  destruct (metadata_cases doc) as [(md & -> & _) | (_ & _ & Hn)];
    [|congruence].
  apply value_error_bind.
  { unfold check_text. destruct (dict_get doc (lit "text")); try reflexivity.
    now destruct (is_empty (strip s)). }
  intros _. apply value_error_bind.
  { apply value_error_forM_. intros key. unfold check_required.
    cbn [py_get bind]. now destruct (negb (truthy (dict_get md (lit key)))). }
  intros _. apply value_error_bind.
  { apply value_error_forM_. intros key. unfold check_timestamp.
    cbn [py_get bind]. destruct (dict_get md (lit key)); try reflexivity.
    destruct (negb (endswith s (lit "Z"))); [reflexivity|].
    now destruct (fromisoformat _). }
  intros _. apply check_embedding_value_error.
Qed.

Lemma invalid_rejected (doc : dict) (dim : option Z) :
  invalid fromisoformat doc = true ->
  succeeds (validate_output fromisoformat doc dim) = false.
Proof.
  intros H. rewrite validate_output_split, succeeds_bind.
  pose proof (validate_output_succeeds doc) as Hs. rewrite H in Hs.
  now destruct (validate_output fromisoformat doc None).
Qed.

Lemma invalid_timestamp (doc : dict) (key : string) :
  In key timestamp_keys ->
  timestamp_rejected fromisoformat (metadata_field doc (lit key)) = true ->
  invalid fromisoformat doc = true.
Proof.
  intros Hin Hr. unfold invalid. apply orb_true_iff. right.
  apply existsb_exists. exists key. now split.
Qed.

Lemma millis_timestamp_accepted :
  fromisoformat (lit "2024-01-01T10:00:00.123+00:00") = true ->
  timestamp_rejected fromisoformat
    (Some (VStr (lit "2024-01-01T10:00:00.123Z"))) = false.
Proof.
  intros H. unfold timestamp_rejected.
  replace (endswith (lit "2024-01-01T10:00:00.123Z") (lit "Z")) with true
    by reflexivity.
  replace (replace_char_str 90%N (lit "+00:00") (lit "2024-01-01T10:00:00.123Z"))
    with (lit "2024-01-01T10:00:00.123+00:00") by reflexivity.
  now rewrite H.
Qed.

(** C5: [validate_output] without a dimension fails exactly when the
    text is missing or blank, or [metadata.external_id] or
    [metadata.url] is missing or falsy, or one of the timestamps
    [publish_date], [datetime], [first_publish_date] is present (bound to
    something other than [None]) and is not a string, does not end in
    [Z], or does not parse; these failures do not depend on the dimension
    argument and are [ValueError]s.  A document without [external_id] is
    rejected, the timestamp [2024-01-01 10:00:00] is rejected, and
    [2024-01-01T10:00:00.123Z] is accepted by any parser that accepts
    [2024-01-01T10:00:00.123+00:00].  Success is the value [tt]: the
    function computes nothing else and changes nothing. *)
Theorem validate_output_rejects_exactly (doc : dict) :
  (succeeds (validate_output fromisoformat doc None) = false <->
   invalid fromisoformat doc = true) /\
  (forall dim, invalid fromisoformat doc = true ->
               succeeds (validate_output fromisoformat doc dim) = false) /\
  (forall dim, metadata_mapping doc = true ->
               succeeds (validate_output fromisoformat doc dim) = false ->
               is_value_error (validate_output fromisoformat doc dim) = true) /\
  (metadata_field doc (lit "external_id") = None ->
   succeeds (validate_output fromisoformat doc None) = false) /\
  (forall key, In key timestamp_keys ->
     metadata_field doc (lit key) = Some (VStr (lit "2024-01-01 10:00:00")) ->
     succeeds (validate_output fromisoformat doc None) = false) /\
  (fromisoformat (lit "2024-01-01T10:00:00.123+00:00") = true ->
   timestamp_rejected fromisoformat
     (Some (VStr (lit "2024-01-01T10:00:00.123Z"))) = false /\
   validate_output fromisoformat
     (sample_document (VStr (lit "2024-01-01T10:00:00.123Z"))) None = Ok tt).
Proof.
  repeat split.
  - intros H. rewrite validate_output_succeeds in H.
    now apply negb_false_iff in H.
  - intros H. rewrite validate_output_succeeds. now rewrite H.
  - intros dim. apply invalid_rejected.
  - intros dim Hm Hs.
    pose proof (validate_output_value_error doc dim Hm) as H.
    now rewrite Hs in H.
  - intros H. apply invalid_rejected. unfold invalid. rewrite H.
    cbn [missing_or_falsy]. now rewrite orb_true_r.
  - intros key Hin H. apply invalid_rejected.
    apply (@invalid_timestamp doc key Hin). now rewrite H.
  - now apply millis_timestamp_accepted.
  - pose proof (validate_output_succeeds
                  (sample_document (VStr (lit "2024-01-01T10:00:00.123Z")))) as Hs.
    assert (Hi : invalid fromisoformat
                   (sample_document (VStr (lit "2024-01-01T10:00:00.123Z"))) = false).
    { unfold invalid.
      change (text_missing_or_blank (sample_document (VStr (lit "2024-01-01T10:00:00.123Z")))) with false.
      cbv [existsb timestamp_keys].
      change (metadata_field (sample_document (VStr (lit "2024-01-01T10:00:00.123Z"))) (lit "external_id"))
        with (Some (VStr (lit "doc-1"))).
      change (metadata_field (sample_document (VStr (lit "2024-01-01T10:00:00.123Z"))) (lit "url"))
        with (Some (VStr (lit "https://www.example.com/a/b"))).
      change (metadata_field (sample_document (VStr (lit "2024-01-01T10:00:00.123Z"))) (lit "publish_date"))
        with (Some (VStr (lit "2024-01-01T10:00:00.123Z"))).
      change (metadata_field (sample_document (VStr (lit "2024-01-01T10:00:00.123Z"))) (lit "datetime"))
        with (@None value).
      change (metadata_field (sample_document (VStr (lit "2024-01-01T10:00:00.123Z"))) (lit "first_publish_date"))
        with (@None value).
      rewrite (millis_timestamp_accepted H). reflexivity. }
    rewrite Hi in Hs.
    destruct (validate_output fromisoformat _ None) as [[]|]; [reflexivity|].
    discriminate Hs.
Qed.

(** C6 (as amended): for a document that passes the text, required-key
    and timestamp checks and a dimension other than zero, a document
    without an [embedding] key passes, and a document with one fails
    exactly when the embedding is not a list or its length differs from
    the dimension; the failure is the [ValueError] of the dimension
    check.  The elements of the list are not inspected. *)
Theorem validate_output_embedding (doc : dict) (dim : Z) :
  validate_output fromisoformat doc None = Ok tt ->
  dim <> 0 ->
  (dict_has doc (lit "embedding") = false ->
   validate_output fromisoformat doc (Some dim) = Ok tt) /\
  (succeeds (validate_output fromisoformat doc (Some dim)) = false <->
   embedding_mismatch doc dim = true) /\
  (embedding_mismatch doc dim = true <->
   exists emb, lookup doc (lit "embedding") = Some emb /\
               forall l, emb = VList l -> Z.of_nat (length l) <> dim) /\
  (succeeds (validate_output fromisoformat doc (Some dim)) = false ->
   validate_output fromisoformat doc (Some dim) =
   Raise (ValueError "Embedding dimension mismatch")).
Proof.
  intros Hv Hd. rewrite validate_output_split, Hv. cbn [bind].
  rewrite (check_embedding_spec doc Hd).
  repeat split.
  - unfold dict_has, embedding_mismatch.
    now destruct (lookup doc (lit "embedding")).
  - now destruct (embedding_mismatch doc dim).
  - now destruct (embedding_mismatch doc dim).
  - unfold embedding_mismatch.
    destruct (lookup doc (lit "embedding")) as [emb|]; [|discriminate].
    intros H. exists emb. split; [reflexivity|]. intros l ->.
    apply negb_true_iff in H. now apply Z.eqb_neq.
  - unfold embedding_mismatch. intros (emb & -> & H).
    destruct emb; try reflexivity.
    apply negb_true_iff, Z.eqb_neq. now apply H.
  - now destruct (embedding_mismatch doc dim).
Qed.

End ValidatorFacts.

(** C5, witness: the sample document with the timestamp
    [2024-01-01T10:00:00.123Z] against the sample parser. *)
Lemma validate_output_rejects_exactly_witness :
  timestamp_rejected iso_utc_format
    (Some (VStr (lit "2024-01-01T10:00:00.123Z"))) = false /\
  validate_output iso_utc_format
    (sample_document (VStr (lit "2024-01-01T10:00:00.123Z"))) None = Ok tt.
Proof.
  refine (proj2 (proj2 (proj2 (proj2 (proj2
    (validate_output_rejects_exactly iso_utc_format
       (sample_document (VStr (lit "2024-01-01T10:00:00.123Z")))))))) _).
  reflexivity.
Defined.

(** C6, witness: the sample document with a two-component embedding,
    checked against the dimension 3. *)
Lemma validate_output_embedding_witness :
  succeeds (validate_output iso_utc_format
              (dict_set (sample_document VNone) (lit "embedding")
                        (vector (position_vector 0)))
              (Some 3)) = false <->
  embedding_mismatch (dict_set (sample_document VNone) (lit "embedding")
                               (vector (position_vector 0))) 3 = true.
Proof.
  refine (proj1 (proj2 (validate_output_embedding iso_utc_format
    (dict_set (sample_document VNone) (lit "embedding")
              (vector (position_vector 0))) (dim := 3) _ _))).
  - reflexivity.
  - discriminate.
Defined.

(** C6, counterexample: with the dimension 384 supplied, a document
    without an embedding passes, and so does one whose embedding is a list
    of two strings when the dimension is 2. *)
Lemma validate_output_accepts_without_embedding :
  dict_has (sample_document VNone) (lit "embedding") = false /\
  validate_output iso_utc_format (sample_document VNone) (Some 384) = Ok tt /\
  validate_output iso_utc_format
    (dict_set (sample_document VNone) (lit "embedding")
              (VList [VStr (lit "a"); VStr (lit "b")]))
    (Some 2) = Ok tt.
Proof. repeat split; reflexivity. Qed.

(** ** Embedding and orchestration *)

Lemma length_set_nth {A} (n : nat) (l : list A) (v : A) :
  length (set_nth n l v) = length l.
Proof.
  revert n. induction l as [|a r IH]; intros [|n]; simpl; auto.
Qed.

Lemma nth_error_set_nth_same {A} (n : nat) (l : list A) (v : A) :
  (n < length l)%nat -> nth_error (set_nth n l v) n = Some v.
Proof.
  revert n. induction l as [|a r IH]; intros [|n] H; simpl in *;
    try lia; [reflexivity|]. apply IH. lia.
Qed.

Lemma nth_error_set_nth_other {A} (n m : nat) (l : list A) (v : A) :
  n <> m -> nth_error (set_nth n l v) m = nth_error l m.
Proof.
  revert n m. induction l as [|a r IH]; intros [|n] [|m] H; simpl;
    try reflexivity; try congruence. apply IH. congruence.
Qed.

Lemma list_setitem_in_range (l : list value) (i : Z) (v : value) :
  0 <= i < Z.of_nat (length l) ->
  list_setitem l i v = Ok (set_nth (Z.to_nat i) l v).
Proof.
  intros H. unfold list_setitem.
  destruct (Z.ltb_spec i 0); [lia|].
  destruct (Z.leb_spec 0 i); [|lia].
  destruct (Z.ltb_spec i (Z.of_nat (length l))); [reflexivity | lia].
Qed.

(** The filling loop: every item lands in the slot of its index, other
    slots keep what they held. *)
Lemma place_items_spec (data : list item) :
  forall init,
    NoDup (map index data) ->
    (forall it, In it data -> 0 <= index it < Z.of_nat (length init)) ->
    exists slots,
      place_items init data = Ok slots /\
      length slots = length init /\
      (forall it, In it data ->
         nth_error slots (Z.to_nat (index it)) = Some (vector (embedding it))) /\
      (forall j, ~ In (Z.of_nat j) (map index data) ->
         nth_error slots j = nth_error init j).
Proof.
  induction data as [|it rest IH]; intros init Hnd Hr.
  - exists init. simpl. repeat split; auto. intros it [].
  - simpl in Hnd. inversion Hnd as [|x xs Hnotin Hnd']. subst.
    assert (Hi : 0 <= index it < Z.of_nat (length init)) by (apply Hr; now left).
    cbn [place_items]. rewrite (list_setitem_in_range _ _ Hi). cbn [bind].
    destruct (IH (set_nth (Z.to_nat (index it)) init (vector (embedding it))) Hnd')
      as (slots & E & Hlen & Hin & Hout).
    { intros it' Hit'. rewrite length_set_nth. apply Hr. now right. }
    exists slots. rewrite length_set_nth in Hlen. repeat split; auto.
    + intros it' [<- | Hit']; [|now apply Hin].
      rewrite Hout.
      * apply nth_error_set_nth_same. lia.
      * now rewrite Z2Nat.id by lia.
    + intros j Hj. rewrite Hout.
      * apply nth_error_set_nth_other. intros <-. apply Hj. left.
        rewrite Z2Nat.id; lia.
      * intros Hj'. apply Hj. now right.
Qed.

Lemma lookup_set_embedding (doc : dict) (e : value) (k : str) :
  str_eqb (lit "embedding") k = false ->
  lookup (dict_set doc (lit "embedding") e) k = lookup doc k.
Proof. intros H. now rewrite lookup_dict_set, H. Qed.

Section EmbeddingFacts.

Variable get_text : str -> str.
Variable fromisoformat : str -> bool.
Variable repr_nonstr : value -> str.
Variable SentenceTransformer : str -> result st_model.
Variable embeddings_create : nat -> str -> list value -> result (list item).

(** Attaching an embedding changes nothing the first validation reads. *)
Lemma validate_output_set_embedding (doc : dict) (e : value) :
  validate_output fromisoformat (dict_set doc (lit "embedding") e) None =
  validate_output fromisoformat doc None.
Proof.
  unfold validate_output, check_text, dict_get, dict_get_default.
  now rewrite !lookup_set_embedding by reflexivity.
Qed.

Lemma validate_output_attached (doc : dict) (v : list Q) :
  validate_output fromisoformat doc None = Ok tt ->
  validate_output fromisoformat (dict_set doc (lit "embedding") (vector v))
    (Some (Z.of_nat (length v))) = Ok tt.
Proof.
  intros H. rewrite validate_output_split, validate_output_set_embedding, H.
  cbn [bind]. unfold check_embedding, dict_has, dict_get.
  rewrite lookup_dict_set, str_eqb_refl.
  destruct (Z.of_nat (length v) =? 0); [reflexivity|]. cbn [negb andb].
  unfold vector. now rewrite length_map, Z.eqb_refl.
Qed.

Lemma attach_embeddings_order (dim : option Z) (docs : list dict) :
  forall embeddings docs',
    attach_embeddings fromisoformat dim docs embeddings = Ok docs' ->
    Forall2 same_or_embedded docs docs'.
Proof.
  induction docs as [|doc rest IH]; intros embeddings docs' H.
  - simpl in H. injection H as <-. constructor.
  - destruct embeddings as [|emb embeddings].
    + simpl in H. injection H as <-.
      apply Forall2_flip, Forall2_impl with (R1 := eq).
      * intros a b ->. now left.
      * clear. induction (doc :: rest); constructor; auto.
    + cbn [attach_embeddings] in H. bind_inv H. injection H as <-.
      constructor; [right; eauto | eapply IH; eassumption].
Qed.

Lemma add_embeddings_openai_order (api_key : option str) (docs : list dict)
  (model_name : str) (batch_size : Z) (r : list dict * Z) :
  add_embeddings_openai fromisoformat embeddings_create api_key docs
    model_name batch_size = Ok r ->
  Forall2 same_or_embedded docs (fst r).
Proof.
  unfold add_embeddings_openai. intros H.
  destruct api_key as [[|c k]|]; try discriminate H.
  bind_inv H. destruct a1 as [|first more]; [discriminate H|].
  bind_inv H. injection H as <-. simpl.
  eapply attach_embeddings_order; eassumption.
Qed.

Lemma add_embeddings_sentence_transformers_order (docs : list dict)
  (model_name : str) (r : list dict * option Z) :
  add_embeddings_sentence_transformers fromisoformat SentenceTransformer
    docs model_name = Ok r ->
  Forall2 same_or_embedded docs (fst r).
Proof.
  unfold add_embeddings_sentence_transformers. intros H.
  bind_inv H. injection H as <-. simpl.
  eapply attach_embeddings_order; eassumption.
Qed.

Local Abbreviation try_doc := (try_transform get_text fromisoformat repr_nonstr).

Lemma transform_loop_order (raw : list value) :
  forall ts,
    transform_loop get_text fromisoformat repr_nonstr raw = Ok ts ->
    Forall2 (fun doc t => try_doc doc = Ok t)
            (filter (fun doc => succeeds (try_doc doc)) raw) ts.
Proof.
  induction raw as [|doc rest IH]; intros ts H.
  - simpl in H. injection H as <-. constructor.
  - cbn [transform_loop] in H. cbn [filter].
    destruct (try_doc doc) as [t|e] eqn:E; cbn [succeeds].
    + bind_inv H. injection H as <-. constructor; [exact E | now apply IH].
    + bind_inv H. now apply IH.
Qed.

Lemma transform_loop_total (raw : list value) :
  forallb is_dict raw = true ->
  exists ts, transform_loop get_text fromisoformat repr_nonstr raw = Ok ts.
Proof.
  induction raw as [|doc rest IH]; simpl; intros H; [eauto|].
  apply andb_prop in H. destruct H as [Hd Hr].
  destruct (IH Hr) as (ts & ->).
  destruct (try_doc doc); cbn [bind]; [eauto|].
  destruct doc; try discriminate Hd. cbn [py_get bind]. eauto.
Qed.

Lemma Forall2_same_refl (ts : list dict) : Forall2 same_or_embedded ts ts.
Proof. induction ts; constructor; auto. now left. Qed.

(** C2: whenever the pipeline writes its output, the documents written
    are, one for one and in the same order, the transformed forms of
    exactly those input documents (after the prefix limit) that pass
    transformation and validation, each as transformed or with an
    embedding attached; and with embeddings skipped the pipeline does
    write its output for every input made of objects. *)
Theorem run_pipeline_preserves_order (api_key : option str)
  (raw : list value) (limit : option Z) (model_name : str)
  (skip_embeddings : bool) (provider openai_model : str) :
  (forall out,
     run_pipeline get_text fromisoformat repr_nonstr SentenceTransformer
       embeddings_create api_key raw limit model_name skip_embeddings
       provider openai_model = Ok out ->
     exists ts,
       Forall2 (fun doc t => try_doc doc = Ok t)
               (filter (fun doc => succeeds (try_doc doc)) (apply_limit limit raw))
               ts /\
       Forall2 same_or_embedded ts out) /\
  (skip_embeddings = true ->
   forallb is_dict (apply_limit limit raw) = true ->
   exists out,
     run_pipeline get_text fromisoformat repr_nonstr SentenceTransformer
       embeddings_create api_key raw limit model_name skip_embeddings
       provider openai_model = Ok out).
Proof.
  unfold run_pipeline. split.
  - intros out H. bind_inv H. exists a. split.
    + now apply transform_loop_order.
    + destruct skip_embeddings; cbn [negb] in H.
      * injection H as <-. apply Forall2_same_refl.
      * destruct (str_eqb provider (lit "openai")); bind_inv H;
          injection H as <-.
        -- eapply add_embeddings_openai_order; eassumption.
        -- eapply add_embeddings_sentence_transformers_order; eassumption.
  - intros -> Hd. destruct (transform_loop_total _ Hd) as (ts & ->).
    cbn [bind negb]. eauto.
Qed.

(** C10: a prefix limit of 0 leaves the corpus whole, and the pipeline
    run with limit 0 is the pipeline run with no limit. *)
Theorem limit_zero_is_no_limit (api_key : option str)
  (raw : list value) (model_name : str)
  (skip_embeddings : bool) (provider openai_model : str) :
  apply_limit (Some 0) raw = raw /\
  run_pipeline get_text fromisoformat repr_nonstr SentenceTransformer
    embeddings_create api_key raw (Some 0) model_name skip_embeddings
    provider openai_model =
  run_pipeline get_text fromisoformat repr_nonstr SentenceTransformer
    embeddings_create api_key raw None model_name skip_embeddings
    provider openai_model.
Proof. split; reflexivity. Qed.

(** Any other limit that is not negative does cut the corpus. *)
Lemma apply_limit_positive (n : Z) (raw : list value) :
  0 < n -> apply_limit (Some n) raw = firstn (Z.to_nat n) raw.
Proof.
  intros H. unfold apply_limit, py_slice.
  destruct (Z.eqb_spec n 0); [lia|]. cbn [negb].
  destruct (Z.ltb_spec n 0); [lia|]. cbn [skipn]. f_equal. lia.
Qed.

(** C1: the filling loop puts every vector of a response into the slot
    named by its item's index, whatever the order of the items, when the
    indices are distinct positions of the batch; and for two validated
    documents whose response arrives with the indices 1, 0 the first
    document receives the vector of index 0 and the second the vector of
    index 1. *)
Theorem remote_vectors_placed_by_index :
  (forall data,
     NoDup (map index data) ->
     (forall it, In it data -> 0 <= index it < Z.of_nat (length data)) ->
     exists slots,
       place_by_index data = Ok slots /\
       length slots = length data /\
       forall it, In it data ->
         nth_error slots (Z.to_nat (index it)) = Some (vector (embedding it))) /\
  (forall key doc0 doc1 text0 text1 v0 v1 model_name,
     key <> [] ->
     validate_output fromisoformat doc0 None = Ok tt ->
     validate_output fromisoformat doc1 None = Ok tt ->
     lookup doc0 (lit "text") = Some text0 ->
     lookup doc1 (lit "text") = Some text1 ->
     length v0 = length v1 ->
     embeddings_create 0%nat model_name [text0; text1] =
       Ok [{| index := 1; embedding := v1 |}; {| index := 0; embedding := v0 |}] ->
     add_embeddings_openai fromisoformat embeddings_create (Some key)
       [doc0; doc1] model_name 100 =
     Ok ([dict_set doc0 (lit "embedding") (vector v0);
          dict_set doc1 (lit "embedding") (vector v1)],
         Z.of_nat (length v0))).
Proof.
  split.
  - intros data Hnd Hr. unfold place_by_index.
    destruct (place_items_spec data (repeat VNone (length data)) Hnd)
      as (slots & E & Hlen & Hin & _).
    { now rewrite repeat_length. }
    exists slots. rewrite repeat_length in Hlen. auto.
  - intros key doc0 doc1 text0 text1 v0 v1 model_name Hk H0 H1 T0 T1 Hlen Hresp.
    unfold add_embeddings_openai. destruct key as [|c key]; [congruence|].
    unfold doc_texts. cbn [mapM py_getitem]. rewrite T0, T1. cbn [bind length].
    change (py_range 2 100) with (Ok (A := list nat) [0%nat]). cbn [bind].
    cbn [embed_batches].
    change (py_slice [text0; text1] 0 (Z.of_nat 0 + 100)) with [text0; text1].
    rewrite Hresp. cbn [bind].
    change (place_by_index [{| index := 1; embedding := v1 |};
                            {| index := 0; embedding := v0 |}])
      with (Ok (A := list value) [vector v0; vector v1]).
    cbn [bind app]. unfold vector at 1. cbn [py_len]. rewrite length_map.
    cbn [bind attach_embeddings].
    rewrite (@validate_output_attached doc0 v0 H0). cbn [bind].
    rewrite Hlen, (@validate_output_attached doc1 v1 H1). reflexivity.
Qed.

End EmbeddingFacts.

(** C1, witness: two validated documents against the service that answers
    last input first. *)
Lemma remote_vectors_placed_by_index_witness :
  add_embeddings_openai iso_utc_format reversing_service (Some (lit "sk-test"))
    [sample_document VNone; sample_document (VStr (lit "2024-01-01T10:00:00Z"))]
    (lit "text-embedding-3-small") 100
  = Ok ([dict_set (sample_document VNone) (lit "embedding")
           (vector (position_vector 0));
         dict_set (sample_document (VStr (lit "2024-01-01T10:00:00Z")))
           (lit "embedding") (vector (position_vector 1))],
        2).
Proof.
  refine (proj2 (@remote_vectors_placed_by_index iso_utc_format reversing_service)
            (lit "sk-test") (sample_document VNone)
            (sample_document (VStr (lit "2024-01-01T10:00:00Z")))
            (VStr (lit "hello world")) (VStr (lit "hello world"))
            (position_vector 0) (position_vector 1)
            (lit "text-embedding-3-small") _ eq_refl eq_refl eq_refl eq_refl
            eq_refl eq_refl).
  discriminate.
Defined.

(** C2, witness: the sample run keeps the first and the third document,
    in that order. *)
Lemma run_pipeline_preserves_order_witness :
  exists ts,
    Forall2 (fun doc t =>
               try_transform entity_get_text iso_utc_format repr_placeholder doc
               = Ok t)
            (filter (fun doc =>
                       succeeds (try_transform entity_get_text iso_utc_format
                                   repr_placeholder doc))
                    (apply_limit None sample_corpus))
            ts /\
    Forall2 same_or_embedded ts sample_output.
Proof.
  refine (proj1 (@run_pipeline_preserves_order entity_get_text iso_utc_format
                   repr_placeholder (fun _ => Ok constant_model) reversing_service
                   (Some (lit "sk-test")) sample_corpus None
                   (lit "all-MiniLM-L6-v2") false (lit "openai")
                   (lit "text-embedding-3-small"))
            sample_output _).
  vm_compute. reflexivity.
Defined.

(** The sample run writes two documents, the first and the third, each
    with the vector of its own position in the batch. *)
Example sample_run_output :
  sample_run = Ok sample_output /\
  map (fun d => lookup d (lit "text")) sample_output =
    [Some (VStr (lit "first")); Some (VStr (lit "third"))] /\
  map (fun d => lookup d (lit "embedding")) sample_output =
    [Some (vector (position_vector 0)); Some (vector (position_vector 1))].
Proof. repeat split; vm_compute; reflexivity. Qed.


(** * Further properties of the code *)

(** ** normalize_text *)

(** X1: whatever the HTML parser returns, the result of [normalize_text]
    has no space or tab next to a newline and no newline at either end. *)
Theorem normalize_str_newlines_clean (get_text : str -> str) (t : str) :
  nl_tight (normalize_str get_text t) = true /\
  starts_nl (normalize_str get_text t) = false /\
  starts_nl (rev (normalize_str get_text t)) = false.
Proof.
  unfold normalize_str.
  set (u := strip_html get_text (replace_char NBSP SPACE t)).
  destruct (strip_by_edges is_nl (collapse_newlines u)) as [E1 E2].
  apply starts_nl_head in E1, E2.
  repeat split; try assumption.
  apply nl_tight_strip, collapse_newlines_tight.
Qed.

(** ** dedupe_preserve *)

Lemma Qeq_bool_sym (p q : Q) : Qeq_bool p q = Qeq_bool q p.
Proof.
  destruct (Qeq_bool p q) eqn:E; symmetry.
  - apply Qeq_bool_iff. symmetry. now apply Qeq_bool_iff.
  - destruct (Qeq_bool q p) eqn:F; [|reflexivity].
    apply Qeq_bool_iff in F. symmetry in F. apply Qeq_bool_iff in F. congruence.
Qed.

Lemma str_eqb_sym (a b : str) : str_eqb a b = str_eqb b a.
Proof.
  destruct (str_eqb a b) eqn:E; symmetry.
  - apply str_eqb_eq in E. subst. apply str_eqb_refl.
  - apply str_eqb_neq. apply str_eqb_neq in E. congruence.
Qed.

Lemma hkey_eqb_sym (a b : hkey) : hkey_eqb a b = hkey_eqb b a.
Proof.
  destruct a, b; simpl; try reflexivity;
    [apply Qeq_bool_sym | apply str_eqb_sym].
Qed.

Lemma py_hash_hashable (v : value) :
  is_hashable v = true <-> exists h, py_hash v = Ok h.
Proof.
  destruct v; simpl; split; intros H; eauto; try discriminate H;
    destruct H as (h & H); discriminate H.
Qed.

(** The invariant of the loop: the result is picked from the input in
    order, its items are truthy, new to [seen] and distinct from one
    another, and every truthy input is in [seen] or in the result. *)
Lemma dedupe_loop_spec (seq : list value) :
  forall seen out,
    dedupe_loop seen seq = Ok out ->
    subseq out seq /\
    Forall (fun w => truthy w = true /\
                     exists h, py_hash w = Ok h /\
                               existsb (hkey_eqb h) seen = false) out /\
    pairwise_distinct out /\
    (forall v, In v seq -> truthy v = true ->
       exists h, py_hash v = Ok h /\
         (existsb (hkey_eqb h) seen = true \/
          exists w h', In w out /\ py_hash w = Ok h' /\ hkey_eqb h h' = true)).
Proof.
  induction seq as [|item rest IH]; intros seen out H.
  - simpl in H. injection H as <-. repeat split; try constructor.
    intros v [].
  - cbn [dedupe_loop] in H. destruct (truthy item) eqn:Et; cbn [negb] in H.
    + destruct (py_hash item) as [h|e] eqn:Eh; [|discriminate H]. cbn [bind] in H.
      destruct (existsb (hkey_eqb h) seen) eqn:Es.
      * destruct (IH _ _ H) as (Hsub & Hall & Hd & Hcov).
        repeat split; auto; [now constructor|].
        intros v [<- | Hin] Hv; [eauto | now apply Hcov].
      * bind_inv H. injection H as <-.
        destruct (IH _ _ E) as (Hsub & Hall & Hd & Hcov).
        repeat split.
        -- now constructor.
        -- constructor; [eauto|].
           eapply Forall_impl; [|exact Hall]. cbv beta.
           intros w (Hw & hw & Ehw & Hs). split; [assumption|].
           exists hw. split; [assumption|]. cbn [existsb] in Hs.
           now apply orb_false_iff in Hs.
        -- constructor; [|assumption].
           eapply Forall_impl; [|exact Hall]. cbv beta.
           intros w (_ & hw & Ehw & Hs). unfold py_eqb. rewrite Eh, Ehw.
           cbn [existsb] in Hs. apply orb_false_iff in Hs.
           rewrite hkey_eqb_sym. tauto.
        -- intros v [<- | Hin] Hv.
           ++ exists h. split; [assumption|]. right. exists item, h.
              repeat split; [now left | assumption |].
              destruct h; simpl; [reflexivity | | apply str_eqb_refl].
              apply Qeq_bool_iff. reflexivity.
           ++ destruct (Hcov v Hin Hv) as (hv & Ehv & [Hs | (w & hw & Hw & Ehw & He)]).
              ** exists hv. split; [assumption|]. cbn [existsb] in Hs.
                 apply orb_true_iff in Hs. destruct Hs as [Hs | Hs]; [|now left].
                 right. exists item, h. repeat split; [now left | assumption | assumption].
              ** exists hv. split; [assumption|]. right. exists w, hw.
                 repeat split; [now right | assumption | assumption].
    + destruct (IH _ _ H) as (Hsub & Hall & Hd & Hcov).
      repeat split; auto; [now constructor|].
      intros v [<- | Hin] Hv; [congruence | now apply Hcov].
Qed.

Lemma subseq_In {A} (l l' : list A) (x : A) : subseq l l' -> In x l -> In x l'.
Proof.
  induction 1; intros Hin; simpl in *; [assumption | right; auto |].
  destruct Hin as [-> | Hin]; [now left | right; auto].
Qed.

Lemma dedupe_preserve_spec_shared (seq out : list value) :
  dedupe_preserve seq = Ok out ->
  subseq out seq /\
  Forall (fun w => truthy w = true) out /\
  pairwise_distinct out /\
  (forall v, In v seq -> truthy v = true ->
     exists w, In w out /\ py_eqb v w = true).
Proof.
  unfold dedupe_preserve. intros H.
  destruct (dedupe_loop_spec _ _ H) as (Hsub & Hall & Hd & Hcov).
  repeat split; auto.
  - eapply Forall_impl; [|exact Hall]. cbv beta. tauto.
  - intros v Hin Hv.
    destruct (Hcov v Hin Hv) as (h & Eh & [Hs | (w & hw & Hw & Ehw & He)]);
      [discriminate Hs|].
    exists w. split; [assumption|]. unfold py_eqb. now rewrite Eh, Ehw.
Qed.

(** X2: when [dedupe_preserve] returns, its result is the input with items
    left out and the order kept; every item of the result is truthy; no
    two items of the result are equal; and every truthy item of the input
    has an equal item in the result. *)
Theorem dedupe_preserve_spec (seq out : list value) :
  dedupe_preserve seq = Ok out ->
  subseq out seq /\
  Forall (fun w => truthy w = true) out /\
  pairwise_distinct out /\
  (forall v, In v seq -> truthy v = true ->
     exists w, In w out /\ py_eqb v w = true).
Proof. apply dedupe_preserve_spec_shared. Qed.

Lemma dedupe_loop_fixed (out : list value) :
  forall seen,
    Forall (fun w => truthy w = true /\
                     exists h, py_hash w = Ok h /\
                               existsb (hkey_eqb h) seen = false) out ->
    pairwise_distinct out ->
    dedupe_loop seen out = Ok out.
Proof.
  induction out as [|w rest IH]; intros seen Hall Hd; [reflexivity|].
  inversion Hall as [|? ? (Hw & h & Eh & Hs) Hrest]. subst.
  inversion Hd as [|? ? Hw' Hd']. subst.
  cbn [dedupe_loop]. rewrite Hw, Eh. cbn [negb bind]. rewrite Hs.
  rewrite IH; [reflexivity | | assumption].
  rewrite Forall_forall in *. intros x Hx.
  destruct (Hrest x Hx) as (Hx1 & hx & Ehx & Hsx).
  split; [assumption|]. exists hx. split; [assumption|].
  cbn [existsb]. rewrite Hsx, orb_false_r.
  specialize (Hw' x Hx). unfold py_eqb in Hw'. rewrite Eh, Ehx in Hw'.
  now rewrite hkey_eqb_sym.
Qed.

(** X3: deduplicating a deduplicated sequence changes nothing. *)
Theorem dedupe_preserve_idempotent (seq out : list value) :
  dedupe_preserve seq = Ok out -> dedupe_preserve out = Ok out.
Proof.
  unfold dedupe_preserve. intros H.
  destruct (dedupe_loop_spec _ _ H) as (_ & Hall & Hd & _).
  now apply dedupe_loop_fixed.
Qed.

Lemma dedupe_loop_raises (seq : list value) :
  forall seen,
    (exists v, In v seq /\ truthy v = true /\ is_hashable v = false) ->
    dedupe_loop seen seq = Raise TypeError.
Proof.
  induction seq as [|item rest IH]; intros seen (v & Hin & Hv & Hh);
    [destruct Hin|].
  cbn [dedupe_loop].
  destruct (is_hashable item) eqn:Ei.
  - assert (Hrest : exists v, In v rest /\ truthy v = true /\ is_hashable v = false).
    { destruct Hin as [-> | Hin]; [congruence | eauto]. }
    destruct (negb (truthy item)); [now apply IH|].
    apply py_hash_hashable in Ei. destruct Ei as (h & ->). cbn [bind].
    destruct (existsb (hkey_eqb h) seen); [now apply IH|].
    now rewrite IH.
  - destruct (truthy item) eqn:Et; cbn [negb].
    + destruct item; try discriminate Ei; reflexivity.
    + destruct Hin as [-> | Hin]; [congruence|]. apply IH. eauto.
Qed.

Lemma dedupe_loop_total (seq : list value) :
  forall seen,
    (forall v, In v seq -> truthy v = true -> is_hashable v = true) ->
    exists out, dedupe_loop seen seq = Ok out.
Proof.
  induction seq as [|item rest IH]; intros seen H; [simpl; eauto|].
  cbn [dedupe_loop].
  assert (Hrest : forall v, In v rest -> truthy v = true -> is_hashable v = true)
    by (intros v Hv; apply H; now right).
  destruct (truthy item) eqn:Et; cbn [negb]; [|now apply IH].
  assert (Hi : is_hashable item = true) by (apply H; [now left | assumption]).
  apply py_hash_hashable in Hi. destruct Hi as (h & ->). cbn [bind].
  destruct (existsb (hkey_eqb h) seen); [now apply IH|].
  destruct (IH (h :: seen) Hrest) as (out & ->). cbn [bind]. eauto.
Qed.

(** X4: [dedupe_preserve] raises exactly when some truthy item is a list
    or a dict, which no set can hold, and what it raises is a
    [TypeError]. *)
Theorem dedupe_preserve_raises_iff (seq : list value) :
  ((exists v, In v seq /\ truthy v = true /\ is_hashable v = false) <->
   dedupe_preserve seq = Raise TypeError) /\
  (succeeds (dedupe_preserve seq) = false ->
   dedupe_preserve seq = Raise TypeError).
Proof.
  assert (Hdec : (exists v, In v seq /\ truthy v = true /\ is_hashable v = false) \/
                 (forall v, In v seq -> truthy v = true -> is_hashable v = true)).
  { induction seq as [|item rest IH]; [right; intros v []|].
    destruct IH as [(v & Hin & Hv & Hh) | IH]; [left; exists v; simpl; auto|].
    destruct (truthy item) eqn:Et, (is_hashable item) eqn:Eh;
      try (right; intros v [<- | Hin] Hv; [congruence | now apply IH]).
    left. exists item. simpl. auto. }
  unfold dedupe_preserve. destruct Hdec as [Hex | Hall].
  - pose proof (@dedupe_loop_raises seq [] Hex) as E. rewrite E. tauto.
  - destruct (@dedupe_loop_total seq [] Hall) as (out & E). rewrite E. split.
    + split; [|discriminate]. intros (v & Hin & Hv & Hh).
      rewrite (Hall v Hin Hv) in Hh. discriminate.
    + discriminate.
Qed.

Definition news_sports_news : list value :=
  [VStr (lit "news"); VStr (lit "sports"); VStr (lit "news")].

(** X2, witness: [news, sports, news] gives [news, sports]. *)
Lemma dedupe_preserve_spec_witness :
  subseq [VStr (lit "news"); VStr (lit "sports")] news_sports_news /\
  Forall (fun w => truthy w = true) [VStr (lit "news"); VStr (lit "sports")] /\
  pairwise_distinct [VStr (lit "news"); VStr (lit "sports")] /\
  (forall v, In v news_sports_news -> truthy v = true ->
     exists w, In w [VStr (lit "news"); VStr (lit "sports")] /\ py_eqb v w = true).
Proof.
  apply (@dedupe_preserve_spec news_sports_news
           [VStr (lit "news"); VStr (lit "sports")]).
  reflexivity.
Defined.

(** X3, witness: the same sequence. *)
Lemma dedupe_preserve_idempotent_witness :
  dedupe_preserve [VStr (lit "news"); VStr (lit "sports")]
  = Ok [VStr (lit "news"); VStr (lit "sports")].
Proof.
  apply (@dedupe_preserve_idempotent news_sports_news). reflexivity.
Defined.

(** ** extract_text *)








(** ** extract_metadata and build_url *)

Lemma lookup_set_if_nonblank_full (d : dict) (k k' : str) (v : value) :
  lookup (set_if_nonblank d k v) k' =
  if str_eqb k k' && nonblank_str v then Some v else lookup d k'.
Proof.
  unfold set_if_nonblank. destruct (nonblank_str v).
  - rewrite lookup_dict_set. now destruct (str_eqb k k').
  - now rewrite andb_false_r.
Qed.

(** What a successful extraction computed on its way. *)
Lemma extract_metadata_steps (repr_nonstr : value -> str) (doc md : dict) :
  extract_metadata repr_nonstr doc = Ok md ->
  exists s_names sections c_names categories t sn t_names t_stripped tags
         thumb title url,
    py_get (taxonomy_of doc) (lit "sections") = Ok sn /\
    collect_names (py_or sn (VList [])) = Ok s_names /\
    dedupe_preserve s_names = Ok sections /\
    dedupe_preserve c_names = Ok categories /\
    py_get (taxonomy_of doc) (lit "tags") = Ok t /\
    collect_names (py_or t (VList [])) = Ok t_names /\
    mapM lstrip_at t_names = Ok t_stripped /\
    dedupe_preserve t_stripped = Ok tags /\
    find_thumb (py_or (dict_get doc (lit "promo_items")) (VDict [])) promo_keys
      = Ok thumb /\
    py_get (py_or (dict_get doc (lit "headlines")) (VDict [])) (lit "basic")
      = Ok title /\
    build_url repr_nonstr doc = Ok url /\
    md = assemble_metadata doc title url sections categories tags thumb.
Proof.
  unfold extract_metadata. fold (taxonomy_of doc). intros H.
  destruct (py_get (taxonomy_of doc) (lit "sections")) as [sn|] eqn:E1;
    [cbn [bind] in H | discriminate H].
  destruct (collect_names (py_or sn (VList []))) as [s_names|] eqn:E2;
    [cbn [bind] in H | discriminate H].
  destruct (dedupe_preserve s_names) as [sections|] eqn:E3;
    [cbn [bind] in H | discriminate H].
  destruct (py_get (taxonomy_of doc) (lit "categories")) as [cn|] eqn:E4;
    [cbn [bind] in H | discriminate H].
  destruct (collect_names (py_or cn (VList []))) as [c_names|] eqn:E5;
    [cbn [bind] in H | discriminate H].
  destruct (dedupe_preserve c_names) as [categories|] eqn:E6;
    [cbn [bind] in H | discriminate H].
  destruct (py_get (taxonomy_of doc) (lit "tags")) as [t|] eqn:E7;
    [cbn [bind] in H | discriminate H].
  destruct (collect_names (py_or t (VList []))) as [t_names|] eqn:E8;
    [cbn [bind] in H | discriminate H].
  destruct (mapM lstrip_at t_names) as [t_stripped|] eqn:E9;
    [cbn [bind] in H | discriminate H].
  destruct (dedupe_preserve t_stripped) as [tags|] eqn:E10;
    [cbn [bind] in H | discriminate H].
  destruct (find_thumb _ promo_keys) as [thumb|] eqn:E11;
    [cbn [bind] in H | discriminate H].
  destruct (py_get (py_or (dict_get doc (lit "headlines")) (VDict [])) (lit "basic"))
    as [title|] eqn:E12; [cbn [bind] in H | discriminate H].
  destruct (build_url repr_nonstr doc) as [url|] eqn:E13;
    [cbn [bind] in H | discriminate H].
  injection H as <-.
  exists s_names, sections, c_names, categories, t, sn, t_names, t_stripped,
    tags, thumb, title, url.
  repeat split; assumption.
Qed.

(** Reading the assembled mapping back, key by key. *)
Ltac read_metadata :=
  unfold assemble_metadata;
  repeat (first [ rewrite lookup_set_if_nonblank_full
                | rewrite lookup_dict_set ]);
  eval_key_tests; cbn [andb lookup]; unfold optional_field;
  repeat match goal with
    | |- context [nonblank_str ?v] => destruct (nonblank_str v)
    end; reflexivity.

Lemma assemble_metadata_fields (doc : dict) (title url : value)
  (sections categories tags : list value) (thumb : value) :
  let md := assemble_metadata doc title url sections categories tags thumb in
  lookup md (lit "title") = optional_field title /\
  lookup md (lit "url") = Some url /\
  lookup md (lit "external_id") = Some (dict_get doc (lit "_id")) /\
  lookup md (lit "publish_date") = optional_field (dict_get doc (lit "publish_date")) /\
  lookup md (lit "datetime") =
    optional_field (py_or (dict_get doc (lit "display_date"))
                          (dict_get doc (lit "publish_date"))) /\
  lookup md (lit "first_publish_date") =
    optional_field (dict_get doc (lit "first_publish_date")) /\
  lookup md (lit "website") = optional_field (website_identifier doc) /\
  lookup md (lit "sections") = Some (VList sections) /\
  lookup md (lit "categories") = Some (VList categories) /\
  lookup md (lit "tags") = Some (VList tags) /\
  lookup md (lit "thumb") = optional_field thumb.
Proof. cbv zeta. repeat split; read_metadata. Qed.

(** X6: in the Metadata of a successful extraction every optional field
    is there exactly when its source is a non-blank string, and then holds
    that source unchanged: [publish_date], [first_publish_date] from the
    keys of the same name, [datetime] from [display_date] or else
    [publish_date], [website] from [canonical_website] or else [website],
    [title] from [headlines.basic]. *)
Theorem extract_metadata_optional_fields (repr_nonstr : value -> str)
  (doc md : dict) :
  extract_metadata repr_nonstr doc = Ok md ->
  lookup md (lit "publish_date") = optional_field (dict_get doc (lit "publish_date")) /\
  lookup md (lit "datetime") =
    optional_field (py_or (dict_get doc (lit "display_date"))
                          (dict_get doc (lit "publish_date"))) /\
  lookup md (lit "first_publish_date") =
    optional_field (dict_get doc (lit "first_publish_date")) /\
  lookup md (lit "website") = optional_field (website_identifier doc) /\
  exists title,
    py_get (py_or (dict_get doc (lit "headlines")) (VDict [])) (lit "basic")
      = Ok title /\
    lookup md (lit "title") = optional_field title.
Proof.
  intros H. apply extract_metadata_steps in H.
  destruct H as (s_names & sections & c_names & categories & t & sn & t_names &
                 t_stripped & tags & thumb & title & url & H).
  destruct H as (Hsn & Hsnames & Hsec & Hcat & Ht & Htn & Hstrip & Htags &
                 Hthumb & Htitle & Hurl & ->).
  pose proof (assemble_metadata_fields doc title url sections categories tags thumb)
    as F. cbv zeta in F.
  destruct F as (Ftitle & Furl & Fid & Fpub & Fdt & Ffirst & Fweb & Fsec &
                 Fcat & Ftags & Fthumb).
  repeat split; try assumption. exists title. now split.
Qed.

(** X6, witness: a document whose [display_date] is blank and whose
    [publish_date] is a timestamp. *)
Lemma extract_metadata_optional_fields_witness :
  lookup [(lit "url", VNone); (lit "external_id", VNone);
          (lit "publish_date", VStr (lit "2024-01-01T10:00:00Z"));
          (lit "datetime", VStr (lit "2024-01-01T10:00:00Z"));
          (lit "sections", VList []); (lit "categories", VList []);
          (lit "tags", VList [])]
         (lit "datetime")
  = optional_field
      (py_or (dict_get [(lit "display_date", VStr []);
                        (lit "publish_date", VStr (lit "2024-01-01T10:00:00Z"))]
                       (lit "display_date"))
             (dict_get [(lit "display_date", VStr []);
                        (lit "publish_date", VStr (lit "2024-01-01T10:00:00Z"))]
                       (lit "publish_date"))).
Proof.
  refine (proj1 (proj2 (@extract_metadata_optional_fields repr_placeholder
    [(lit "display_date", VStr []);
     (lit "publish_date", VStr (lit "2024-01-01T10:00:00Z"))] _ _))).
  reflexivity.
Defined.

Lemma mapM_lstrip_at_shape (names out : list value) :
  mapM lstrip_at names = Ok out ->
  Forall (fun v => exists s, v = VStr s /\ startswith s [AT] = false) out.
Proof.
  revert out. induction names as [|n r IH]; intros out H.
  - simpl in H. injection H as <-. constructor.
  - cbn [mapM] in H. bind_inv H. injection H as <-.
    constructor; [|now apply IH].
    destruct n; try discriminate E. simpl in E. injection E as <-.
    eexists. split; [reflexivity|].
    pose proof (lstrip_by_head (N.eqb AT) s) as Hh.
    destruct (lstrip_by (N.eqb AT) s) as [|c r']; [reflexivity|].
    cbn [startswith]. now rewrite Hh.
Qed.

Lemma py_eqb_refl (v : value) : is_hashable v = true -> py_eqb v v = true.
Proof.
  intros H. apply py_hash_hashable in H. destruct H as (h & E).
  unfold py_eqb. rewrite E. destruct h; simpl;
    [reflexivity | apply Qeq_bool_iff; reflexivity | apply str_eqb_refl].
Qed.

Lemma pairwise_distinct_NoDup (l : list value) :
  Forall (fun v => is_hashable v = true) l ->
  pairwise_distinct l -> NoDup l.
Proof.
  intros Hh Hd. induction Hd as [|a l Ha Hd IH]; [constructor|].
  inversion Hh. subst. constructor; [|now apply IH].
  intros Hin. rewrite Forall_forall in Ha. specialize (Ha a Hin).
  rewrite py_eqb_refl in Ha by assumption. discriminate.
Qed.

(** X7: the Metadata of a successful extraction always has the three
    lists [sections], [categories] and [tags]; every tag is a non-empty
    string that does not start with [@], and no tag occurs twice. *)
Theorem extract_metadata_tags (repr_nonstr : value -> str) (doc md : dict) :
  extract_metadata repr_nonstr doc = Ok md ->
  exists sections categories tags,
    lookup md (lit "sections") = Some (VList sections) /\
    lookup md (lit "categories") = Some (VList categories) /\
    lookup md (lit "tags") = Some (VList tags) /\
    NoDup tags /\
    Forall (fun tag => exists s, tag = VStr s /\ s <> [] /\
                                 startswith s [AT] = false) tags.
Proof.
  intros H. apply extract_metadata_steps in H.
  destruct H as (s_names & sections & c_names & categories & t & sn & t_names &
                 t_stripped & tags & thumb & title & url & H).
  destruct H as (Hsn & Hsnames & Hsec & Hcat & Ht & Htn & Hstrip & Htags &
                 Hthumb & Htitle & Hurl & ->).
  pose proof (assemble_metadata_fields doc title url sections categories tags thumb)
    as F. cbv zeta in F.
  destruct F as (Ftitle & Furl & Fid & Fpub & Fdt & Ffirst & Fweb & Fsec &
                 Fcat & Ftags & Fthumb).
  exists sections, categories, tags. repeat split; try assumption.
  - apply dedupe_preserve_spec_shared in Htags.
    destruct Htags as (Hsub & Htr & Hdis & _).
    apply mapM_lstrip_at_shape in Hstrip. rewrite Forall_forall in Hstrip.
    apply pairwise_distinct_NoDup; [|assumption].
    apply Forall_forall. intros v Hv.
    destruct (Hstrip v (@subseq_In _ _ _ v Hsub Hv)) as (s & -> & _). reflexivity.
  - apply dedupe_preserve_spec_shared in Htags.
    destruct Htags as (Hsub & Htr & Hdis & _).
    apply mapM_lstrip_at_shape in Hstrip. rewrite Forall_forall in Hstrip.
    apply Forall_forall. intros v Hv.
    destruct (Hstrip v (@subseq_In _ _ _ v Hsub Hv)) as (s & -> & Hs).
    rewrite Forall_forall in Htr. specialize (Htr _ Hv).
    exists s. repeat split; [|assumption]. now destruct s.
Qed.

Definition tagged_document : dict :=
  [(lit "taxonomy",
    VDict [(lit "tags",
            VList [VDict [(lit "slug", VStr (lit "@vote"))];
                   VDict [(lit "text", VStr (lit "vote"))];
                   VDict [(lit "name", VStr (lit "@"))];
                   VDict [(lit "name", VStr (lit "city"))]])])].

(** X7, witness: the tags [@vote], [vote], [@] and [city] give [vote] and
    [city]. *)
Lemma extract_metadata_tags_witness :
  exists sections categories tags,
    lookup [(lit "url", VNone); (lit "external_id", VNone);
            (lit "sections", VList []); (lit "categories", VList []);
            (lit "tags", VList [VStr (lit "vote"); VStr (lit "city")])]
           (lit "sections") = Some (VList sections) /\
    lookup [(lit "url", VNone); (lit "external_id", VNone);
            (lit "sections", VList []); (lit "categories", VList []);
            (lit "tags", VList [VStr (lit "vote"); VStr (lit "city")])]
           (lit "categories") = Some (VList categories) /\
    lookup [(lit "url", VNone); (lit "external_id", VNone);
            (lit "sections", VList []); (lit "categories", VList []);
            (lit "tags", VList [VStr (lit "vote"); VStr (lit "city")])]
           (lit "tags") = Some (VList tags) /\
    NoDup tags /\
    Forall (fun tag => exists s, tag = VStr s /\ s <> [] /\
                                 startswith s [AT] = false) tags.
Proof.
  apply (@extract_metadata_tags repr_placeholder tagged_document). reflexivity.
Defined.

(** X8: [build_url] returns [None] exactly when there is no truthy url
    candidate, and otherwise a non-empty string, which starts with [http]
    whenever a website identifier is present; it raises only an
    [AttributeError], and only for a truthy candidate that is not a
    string. *)
Theorem build_url_result (repr_nonstr : value -> str) (doc : dict) :
  (truthy (url_candidate doc) = false <-> build_url repr_nonstr doc = Ok VNone) /\
  (forall u, build_url repr_nonstr doc = Ok u -> u <> VNone ->
     exists s, u = VStr s /\ s <> [] /\
       (truthy (website_identifier doc) = true ->
        startswith s (lit "http") = true)) /\
  (forall e, build_url repr_nonstr doc = Raise e ->
     e = AttributeError /\ truthy (url_candidate doc) = true /\
     is_str (url_candidate doc) = false).
Proof.
  unfold build_url. fold (url_candidate doc). fold (website_identifier doc).
  destruct (truthy (url_candidate doc)) eqn:Et; cbn [negb].
  - destruct (url_candidate doc) as [| | | |c| |] eqn:Ec;
      try (repeat split; intros; try discriminate; try congruence; fail).
    assert (Hne : c <> []) by (intros ->; discriminate Et).
    destruct (startswith c (lit "http")) eqn:Es.
    + repeat split; try discriminate.
      intros u H _. injection H as <-. eauto.
    + destruct (truthy (website_identifier doc)) eqn:Ew.
      * repeat split; try discriminate.
        intros u H _. injection H as <-. eexists. repeat split.
        discriminate.
      * repeat split; try discriminate.
        intros u H _. injection H as <-. exists c. repeat split; auto.
        discriminate.
  - repeat split; try discriminate; try reflexivity.
    intros u H Hu. congruence.
Qed.

Lemma build_url_none_or_string (repr_nonstr : value -> str) (doc : dict)
  (u : value) :
  build_url repr_nonstr doc = Ok u ->
  u = VNone \/ exists s, u = VStr s /\ s <> [].
Proof.
  unfold build_url. fold (url_candidate doc). fold (website_identifier doc).
  destruct (truthy (url_candidate doc)) eqn:Et; cbn [negb];
    [|intros H; injection H as <-; now left].
  destruct (url_candidate doc) as [| | | |c| |]; try discriminate.
  assert (Hne : c <> []) by (intros ->; discriminate Et).
  destruct (startswith c (lit "http")).
  - intros H. injection H as <-. eauto.
  - destruct (truthy (website_identifier doc)); intros H; injection H as <-;
      right; eexists; (split; [reflexivity|]); [discriminate | assumption].
Qed.

(** ** transform_document and the transform loop *)

Lemma optional_field_some (v w : value) :
  optional_field v = Some w -> exists s, w = VStr s.
Proof.
  unfold optional_field. destruct v; simpl; try discriminate.
  destruct (negb (is_empty (strip s))); [|discriminate].
  intros H. injection H as <-. eauto.
Qed.

Lemma timestamp_accepted_cases (parses : str -> bool) (o : option value) :
  timestamp_rejected parses o = false ->
  (forall w, o = Some w -> exists s, w = VStr s) ->
  o = None \/
  exists s, o = Some (VStr s) /\ endswith s (lit "Z") = true /\
            parses (replace_char_str 90%N (lit "+00:00") s) = true.
Proof.
  intros Hr Hs. destruct o as [w|]; [|now left].
  destruct (Hs w eq_refl) as (s & ->). right. exists s.
  cbn [timestamp_rejected] in Hr. apply orb_false_iff in Hr.
  destruct Hr as [H1 H2]. apply negb_false_iff in H1, H2. auto.
Qed.

Section TransformFacts.

Variable get_text : str -> str.
Variable fromisoformat : str -> bool.
Variable repr_nonstr : value -> str.

(** What a document that survives the loop's [try] looks like. *)
Lemma try_transform_shape (doc : value) (t : dict) :
  try_transform get_text fromisoformat repr_nonstr doc = Ok t ->
  exists d text md,
    doc = VDict d /\
    extract_text get_text (dict_get d (lit "content_elements")) = Ok text /\
    extract_metadata repr_nonstr d = Ok md /\
    t = [(lit "text", VStr text); (lit "metadata", VDict md)] /\
    validate_output fromisoformat t None = Ok tt.
Proof.
  unfold try_transform. intros H.
  destruct doc as [| | | | | |d]; try discriminate H.
  cbn [transform_document] in H.
  destruct (extract_text get_text (dict_get d (lit "content_elements")))
    as [text|] eqn:Et; [cbn [bind] in H | discriminate H].
  destruct (extract_metadata repr_nonstr d) as [md|] eqn:Em;
    [cbn [bind] in H | discriminate H].
  destruct (validate_output fromisoformat _ None) as [[]|] eqn:Ev;
    [cbn [bind] in H | discriminate H].
  injection H as <-. exists d, text, md. auto.
Qed.

(** X9: a document that survives transformation and validation is an
    object with exactly the two fields [text] and [metadata]; its text is
    a string that is not blank, its [url] is a non-empty string, its
    [external_id] is the truthy [_id] of the raw document, and each of its
    three timestamps is either absent or a string that ends in [Z] and
    that the parser accepts. *)
Theorem try_transform_valid (doc : value) (t : dict) :
  try_transform get_text fromisoformat repr_nonstr doc = Ok t ->
  exists d text md url,
    doc = VDict d /\
    t = [(lit "text", VStr text); (lit "metadata", VDict md)] /\
    forallb is_space text = false /\
    lookup md (lit "url") = Some (VStr url) /\ url <> [] /\
    lookup md (lit "external_id") = Some (dict_get d (lit "_id")) /\
    truthy (dict_get d (lit "_id")) = true /\
    forall key, In key timestamp_keys ->
      lookup md (lit key) = None \/
      exists s, lookup md (lit key) = Some (VStr s) /\
                endswith s (lit "Z") = true /\
                fromisoformat (replace_char_str 90%N (lit "+00:00") s) = true.
Proof.
  intros H. apply try_transform_shape in H.
  destruct H as (d & text & md & -> & Het & Hem & -> & Hv).
  pose proof (validate_output_succeeds fromisoformat
                [(lit "text", VStr text); (lit "metadata", VDict md)]) as Hs.
  rewrite Hv in Hs. cbn [succeeds] in Hs. symmetry in Hs.
  apply negb_true_iff in Hs. unfold invalid in Hs.
  change (text_missing_or_blank [(lit "text", VStr text); (lit "metadata", VDict md)])
    with (forallb is_space text) in Hs.
  change (metadata_field [(lit "text", VStr text); (lit "metadata", VDict md)])
    with (lookup md) in Hs.
  repeat (apply orb_false_iff in Hs; destruct Hs as [Hs ?]).
  pose proof Hem as Hsteps. apply extract_metadata_steps in Hsteps.
  destruct Hsteps as (s_names & sections & c_names & categories & tg & sn &
                      t_names & t_stripped & tags & thumb & title & u & Hsteps).
  destruct Hsteps as (_ & _ & _ & _ & _ & _ & _ & _ & _ & _ & Hurl & ->).
  pose proof (assemble_metadata_fields d title u sections categories tags thumb)
    as F. cbv zeta in F.
  destruct F as (_ & Furl & Fid & Fpub & Fdt & Ffirst & _).
  rewrite Furl in *. rewrite Fid in *.
  cbn [missing_or_falsy] in *.
  match goal with
  | Hu : negb (truthy u) = false |- _ => apply negb_false_iff in Hu
  end.
  match goal with
  | Hi : negb (truthy (dict_get d (lit "_id"))) = false |- _ =>
      apply negb_false_iff in Hi
  end.
  destruct (build_url_none_or_string _ _ Hurl) as [-> | (s & -> & Hne)];
    [discriminate|].
  exists d, text, (assemble_metadata d title (VStr s) sections categories tags thumb), s.
  repeat split; try assumption.
  intros key [<- | [<- | [<- | []]]].
  - cbn [timestamp_keys existsb] in *.
    repeat match goal with
      | Hx : _ || _ = false |- _ => apply orb_false_iff in Hx; destruct Hx
      end.
    apply timestamp_accepted_cases; [assumption|].
    intros w Hw. rewrite Fpub in Hw. now apply optional_field_some in Hw.
  - cbn [timestamp_keys existsb] in *.
    repeat match goal with
      | Hx : _ || _ = false |- _ => apply orb_false_iff in Hx; destruct Hx
      end.
    apply timestamp_accepted_cases; [assumption|].
    intros w Hw. rewrite Fdt in Hw. now apply optional_field_some in Hw.
  - cbn [timestamp_keys existsb] in *.
    repeat match goal with
      | Hx : _ || _ = false |- _ => apply orb_false_iff in Hx; destruct Hx
      end.
    apply timestamp_accepted_cases; [assumption|].
    intros w Hw. rewrite Ffirst in Hw. now apply optional_field_some in Hw.
Qed.

End TransformFacts.

(** X9, witness: a complete raw article. *)
Lemma try_transform_valid_witness :
  exists d text md url,
    raw_article (VStr (lit "id-1")) "first" = VDict d /\
    [(lit "text", VStr (lit "first"));
     (lit "metadata",
      VDict [(lit "url", VStr (lit "https://www.example.com/a/b"));
             (lit "external_id", VStr (lit "id-1"));
             (lit "website", VStr (lit "example"));
             (lit "sections", VList []); (lit "categories", VList []);
             (lit "tags", VList [])])]
    = [(lit "text", VStr text); (lit "metadata", VDict md)] /\
    forallb is_space text = false /\
    lookup md (lit "url") = Some (VStr url) /\ url <> [] /\
    lookup md (lit "external_id") = Some (dict_get d (lit "_id")) /\
    truthy (dict_get d (lit "_id")) = true /\
    forall key, In key timestamp_keys ->
      lookup md (lit key) = None \/
      exists s, lookup md (lit key) = Some (VStr s) /\
                endswith s (lit "Z") = true /\
                iso_utc_format (replace_char_str 90%N (lit "+00:00") s) = true.
Proof.
  apply (@try_transform_valid entity_get_text iso_utc_format repr_placeholder
           (raw_article (VStr (lit "id-1")) "first")).
  reflexivity.
Defined.

(** ** run_pipeline *)

Lemma Forall2_right {A B} (P : A -> B -> Prop) (l : list A) (l' : list B) :
  Forall2 P l l' -> Forall (fun b => exists a, P a b) l'.
Proof. induction 1; constructor; eauto. Qed.

Lemma Forall2_Forall_right {A B} (P : A -> B -> Prop) (Q : A -> Prop)
  (R : B -> Prop) (l : list A) (l' : list B) :
  (forall a b, Q a -> P a b -> R b) ->
  Forall Q l -> Forall2 P l l' -> Forall R l'.
Proof.
  intros H HQ HP. induction HP; constructor; inversion HQ; subst; eauto.
Qed.

Section RunFacts.

Variable get_text : str -> str.
Variable fromisoformat : str -> bool.
Variable repr_nonstr : value -> str.
Variable SentenceTransformer : str -> result st_model.
Variable embeddings_create : nat -> str -> list value -> result (list item).

Lemma transform_loop_valid (raw : list value) (ts : list dict) :
  transform_loop get_text fromisoformat repr_nonstr raw = Ok ts ->
  Forall (fun t => validate_output fromisoformat t None = Ok tt) ts.
Proof.
  intros H. apply transform_loop_order in H. apply Forall2_right in H.
  eapply Forall_impl; [|exact H]. cbv beta. intros t (doc & Hd).
  apply try_transform_shape in Hd.
  destruct Hd as (d & text & md & _ & _ & _ & _ & Hv). exact Hv.
Qed.

Lemma same_or_embedded_valid (t o : dict) :
  validate_output fromisoformat t None = Ok tt ->
  same_or_embedded t o ->
  validate_output fromisoformat o None = Ok tt.
Proof.
  intros Hv [-> | (e & ->)]; [assumption|].
  now rewrite validate_output_set_embedding.
Qed.

(** X10: every document that [run_pipeline] writes passes the validation
    without a dimension: its text is not blank, its [external_id] and
    [url] are truthy and its timestamps are well-formed, whether or not an
    embedding was attached. *)
Theorem run_pipeline_output_valid (api_key : option str)
  (raw : list value) (limit : option Z) (model_name : str)
  (skip_embeddings : bool) (provider openai_model : str) (out : list dict) :
  run_pipeline get_text fromisoformat repr_nonstr SentenceTransformer
    embeddings_create api_key raw limit model_name skip_embeddings
    provider openai_model = Ok out ->
  Forall (fun o => validate_output fromisoformat o None = Ok tt) out.
Proof.
  unfold run_pipeline. intros H.
  destruct (transform_loop get_text fromisoformat repr_nonstr
              (apply_limit limit raw)) as [ts|] eqn:Et;
    [cbn [bind] in H | discriminate H].
  pose proof (transform_loop_valid _ Et) as Hv.
  destruct skip_embeddings; cbn [negb] in H.
  - now injection H as <-.
  - destruct (str_eqb provider (lit "openai")).
    + destruct (add_embeddings_openai _ _ _ _ _ _) as [r|] eqn:Er;
        [cbn [bind] in H | discriminate H].
      injection H as <-. apply add_embeddings_openai_order in Er.
      eapply Forall2_Forall_right; [|exact Hv|exact Er].
      intros a b. apply same_or_embedded_valid.
    + destruct (add_embeddings_sentence_transformers _ _ _ _) as [r|] eqn:Er;
        [cbn [bind] in H | discriminate H].
      injection H as <-. apply add_embeddings_sentence_transformers_order in Er.
      eapply Forall2_Forall_right; [|exact Hv|exact Er].
      intros a b. apply same_or_embedded_valid.
Qed.

Lemma transform_loop_non_object (raw : list value) :
  (exists v, In v raw /\ is_dict v = false) ->
  transform_loop get_text fromisoformat repr_nonstr raw = Raise AttributeError.
Proof.
  induction raw as [|doc rest IH]; intros (v & Hin & Hv); [destruct Hin|].
  cbn [transform_loop].
  destruct (is_dict doc) eqn:Ed.
  - assert (Hrest : exists v, In v rest /\ is_dict v = false).
    { destruct Hin as [-> | Hin]; [congruence | eauto]. }
    rewrite (IH Hrest).
    destruct (try_transform get_text fromisoformat repr_nonstr doc);
      [reflexivity|].
    destruct doc; try discriminate Ed. reflexivity.
  - destruct doc; try discriminate Ed; reflexivity.
Qed.

(** X11: one element of the input array that is not an object aborts the
    whole run with an [AttributeError], whatever the other elements are:
    the handler that logs a skipped document calls [doc.get] itself. *)
Theorem run_pipeline_non_object_aborts (api_key : option str)
  (raw : list value) (limit : option Z) (model_name : str)
  (skip_embeddings : bool) (provider openai_model : str) :
  (exists v, In v (apply_limit limit raw) /\ is_dict v = false) ->
  run_pipeline get_text fromisoformat repr_nonstr SentenceTransformer
    embeddings_create api_key raw limit model_name skip_embeddings
    provider openai_model = Raise AttributeError.
Proof.
  intros H. unfold run_pipeline. now rewrite (@transform_loop_non_object _ H).
Qed.

End RunFacts.

(** X12: a positive limit keeps that many leading documents, a negative
    limit drops that many trailing documents, and in every case what is
    processed is a prefix of the input. *)
Theorem apply_limit_prefix (limit : option Z) (raw : list value) :
  (forall n, limit = Some n -> 0 < n ->
     apply_limit limit raw = firstn (Z.to_nat n) raw) /\
  (forall n, limit = Some n -> n < 0 ->
     apply_limit limit raw = firstn (length raw - Z.to_nat (- n)) raw) /\
  exists rest, raw = apply_limit limit raw ++ rest.
Proof.
  repeat split.
  - intros n -> Hn. unfold apply_limit, py_slice.
    destruct (Z.eqb_spec n 0); [lia|]. cbn [negb].
    destruct (Z.ltb_spec n 0); [lia|]. cbn [skipn]. f_equal. lia.
  - intros n -> Hn. unfold apply_limit, py_slice.
    destruct (Z.eqb_spec n 0); [lia|]. cbn [negb].
    destruct (Z.ltb_spec n 0); [|lia]. cbn [skipn]. f_equal. lia.
  - destruct limit as [n|]; [|exists []; simpl; now rewrite app_nil_r].
    unfold apply_limit. destruct (negb (n =? 0)).
    + unfold py_slice. cbn [skipn]. eexists. symmetry. apply firstn_skipn.
    + exists []. now rewrite app_nil_r.
Qed.

(** X10, witness: the sample run. *)
Lemma run_pipeline_output_valid_witness :
  Forall (fun o => validate_output iso_utc_format o None = Ok tt) sample_output.
Proof.
  apply (@run_pipeline_output_valid entity_get_text iso_utc_format
           repr_placeholder (fun _ => Ok constant_model) reversing_service
           (Some (lit "sk-test")) sample_corpus None
           (lit "all-MiniLM-L6-v2") false (lit "openai")
           (lit "text-embedding-3-small") sample_output).
  vm_compute. reflexivity.
Defined.

(** X11, witness: an article followed by a string. *)
Lemma run_pipeline_non_object_aborts_witness :
  run_pipeline entity_get_text iso_utc_format repr_placeholder
    (fun _ => Ok constant_model) reversing_service None
    [raw_article (VStr (lit "id-1")) "first"; VStr (lit "oops")]
    None (lit "all-MiniLM-L6-v2") true (lit "openai")
    (lit "text-embedding-3-small")
  = Raise AttributeError.
Proof.
  apply (@run_pipeline_non_object_aborts entity_get_text iso_utc_format
           repr_placeholder (fun _ => Ok constant_model) reversing_service).
  exists (VStr (lit "oops")). split; [right; now left | reflexivity].
Defined.

(** ** Batching *)

Lemma firstn_plus {A} (p q : nat) (l : list A) :
  firstn (p + q) l = firstn p l ++ firstn q (skipn p l).
Proof.
  revert l. induction p as [|p IH]; intros l; [reflexivity|].
  destruct l as [|a l]; simpl; [now destruct q | now rewrite IH].
Qed.

Lemma chunks_concat {A} (st : nat) (l : list A) (c : nat) :
  forall a,
    List.concat (map (fun k => firstn st (skipn (k * st) l)) (seq a c))
    = firstn (c * st) (skipn (a * st) l).
Proof.
  induction c as [|c IH]; intros a; [reflexivity|].
  cbn [seq map List.concat]. rewrite IH.
  replace (S c * st)%nat with (st + c * st)%nat by lia.
  rewrite firstn_plus, skipn_skipn. reflexivity.
Qed.

Lemma ceil_div_covers (n st : nat) :
  (0 < st)%nat -> (n <= (n + st - 1) / st * st)%nat.
Proof.
  intros H.
  pose proof (Nat.div_mod_eq (n + st - 1) st) as E.
  pose proof (Nat.mod_upper_bound (n + st - 1) st) as B. nia.
Qed.

Lemma ceil_div_tight (n st k : nat) :
  (0 < st)%nat -> (k < (n + st - 1) / st)%nat -> (k * st < n)%nat.
Proof.
  intros H Hk.
  pose proof (Nat.div_mod_eq (n + st - 1) st) as E.
  pose proof (Nat.mod_upper_bound (n + st - 1) st) as B. nia.
Qed.

Lemma py_slice_batch {A} (l : list A) (start : nat) (batch_size : Z) :
  0 < batch_size ->
  py_slice l start (Z.of_nat start + batch_size)
  = firstn (Z.to_nat batch_size) (skipn start l).
Proof.
  intros H. unfold py_slice.
  destruct (Z.ltb_spec (Z.of_nat start + batch_size) 0); [lia|].
  f_equal. lia.
Qed.

Lemma py_range_positive (n : nat) (step : Z) :
  0 < step ->
  py_range n step =
  Ok (map (fun k => k * Z.to_nat step)%nat
          (seq 0 ((n + Z.to_nat step - 1) / Z.to_nat step))).
Proof.
  intros H. unfold py_range.
  destruct (Z.eqb_spec step 0); [lia|].
  destruct (Z.ltb_spec step 0); [lia | reflexivity].
Qed.

(** X13: for a positive batch size the batches sent to the remote service
    are consecutive slices of the texts: put one after the other they are
    the texts again, none is empty and none is longer than the batch
    size. *)
Theorem batches_partition (texts : list value) (batch_size : Z)
  (starts : list nat) :
  0 < batch_size ->
  py_range (length texts) batch_size = Ok starts ->
  List.concat
    (map (fun start => py_slice texts start (Z.of_nat start + batch_size)) starts)
  = texts /\
  Forall (fun start =>
            py_slice texts start (Z.of_nat start + batch_size) <> [] /\
            Z.of_nat (length (py_slice texts start (Z.of_nat start + batch_size)))
            <= batch_size) starts.
Proof.
  intros Hb Hr. rewrite (py_range_positive _ Hb) in Hr. injection Hr as <-.
  set (st := Z.to_nat batch_size). assert (Hst : (0 < st)%nat) by (subst st; lia).
  split.
  - rewrite map_map.
    erewrite map_ext; [|intros k; apply (py_slice_batch _ _ Hb)].
    fold st. rewrite (chunks_concat st texts). cbn [Nat.mul skipn].
    apply firstn_all2. now apply ceil_div_covers.
  - apply Forall_forall. intros start Hin. apply in_map_iff in Hin.
    destruct Hin as (k & <- & Hk). apply in_seq in Hk.
    rewrite (py_slice_batch _ _ Hb). fold st. split.
    + assert (Hlt : (k * st < length texts)%nat)
        by (apply ceil_div_tight; [assumption | lia]).
      intros E. apply (f_equal (@length value)) in E.
      rewrite length_firstn, length_skipn in E. simpl in E. lia.
    + rewrite length_firstn. subst st. lia.
Qed.

(** X13, witness: five texts in batches of two. *)
Lemma batches_partition_witness :
  List.concat
    (map (fun start =>
            py_slice [VInt 1; VInt 2; VInt 3; VInt 4; VInt 5] start
                     (Z.of_nat start + 2))
         [0; 2; 4]%nat)
  = [VInt 1; VInt 2; VInt 3; VInt 4; VInt 5] /\
  Forall (fun start =>
            py_slice [VInt 1; VInt 2; VInt 3; VInt 4; VInt 5] start
                     (Z.of_nat start + 2) <> [] /\
            Z.of_nat (length (py_slice [VInt 1; VInt 2; VInt 3; VInt 4; VInt 5]
                                start (Z.of_nat start + 2)))
            <= 2) [0; 2; 4]%nat.
Proof.
  apply (@batches_partition [VInt 1; VInt 2; VInt 3; VInt 4; VInt 5] 2
           [0; 2; 4]%nat).
  - reflexivity.
  - reflexivity.
Defined.

(** ** The remote strategy *)

Lemma honest_response_placed (emb : value -> list Q) (batch : list value)
  (data : list item) :
  honest_response emb batch data ->
  place_by_index data = Ok (map (fun t => vector (emb t)) batch).
Proof.
  intros (Hlen & Hnd & Hit). unfold place_by_index.
  destruct (place_items_spec data (repeat VNone (length data)) Hnd)
    as (slots & E & Hl & Hin & _).
  { intros it Hi. rewrite repeat_length. destruct (Hit it Hi) as (H0 & t & Ht & _).
    split; [assumption|].
    assert (Z.to_nat (index it) < length batch)%nat
      by (apply nth_error_Some; congruence).
    lia. }
  rewrite E. f_equal. rewrite repeat_length in Hl.
  apply nth_error_ext. intros j.
  destruct (Nat.lt_ge_cases j (length batch)) as [Hj | Hj].
  - assert (Hcov : incl (map Z.of_nat (seq 0 (length batch))) (map index data)).
    { apply NoDup_length_incl; [assumption | |].
      - rewrite !length_map, length_seq. lia.
      - intros z Hz. apply in_map_iff in Hz. destruct Hz as (it & <- & Hi).
        destruct (Hit it Hi) as (H0 & t & Ht & _).
        assert (Z.to_nat (index it) < length batch)%nat
          by (apply nth_error_Some; congruence).
        apply in_map_iff. exists (Z.to_nat (index it)). split; [lia|].
        apply in_seq. lia. }
    assert (Hz : In (Z.of_nat j) (map index data)).
    { apply Hcov, in_map_iff. exists j. split; [reflexivity|]. apply in_seq. lia. }
    apply in_map_iff in Hz. destruct Hz as (it & Hidx & Hi).
    pose proof (Hin it Hi) as Hs. rewrite Hidx, Nat2Z.id in Hs. rewrite Hs.
    destruct (Hit it Hi) as (_ & t & Ht & He).
    rewrite Hidx, Nat2Z.id in Ht.
    rewrite nth_error_map, Ht. cbn [option_map]. now rewrite He.
  - transitivity (@None value).
    + apply nth_error_None. lia.
    + symmetry. apply nth_error_None. rewrite length_map. lia.
Qed.

Section RemoteFacts.

Variable fromisoformat : str -> bool.
Variable embeddings_create : nat -> str -> list value -> result (list item).

Lemma embed_batches_honest (emb : value -> list Q) (model_name : str)
  (batch_size : Z) (texts : list value) :
  0 < batch_size ->
  (forall k batch, exists data,
      embeddings_create k model_name batch = Ok data /\
      honest_response emb batch data) ->
  forall c a k,
    embed_batches embeddings_create model_name batch_size texts k
      (map (fun i => i * Z.to_nat batch_size)%nat (seq a c))
    = Ok (map (fun t => vector (emb t))
              (firstn (c * Z.to_nat batch_size)
                      (skipn (a * Z.to_nat batch_size) texts))).
Proof.
  intros Hb Hs. induction c as [|c IH]; intros a k; [reflexivity|].
  cbn [seq map embed_batches].
  rewrite (@py_slice_batch _ texts _ batch_size Hb).
  destruct (Hs k (firstn (Z.to_nat batch_size)
                    (skipn (a * Z.to_nat batch_size) texts)))
    as (data & -> & Hh).
  cbn [bind]. rewrite (@honest_response_placed emb _ data Hh). cbn [bind].
  rewrite IH. cbn [bind]. f_equal. rewrite <- map_app. f_equal.
  replace (S c * Z.to_nat batch_size)%nat
    with (Z.to_nat batch_size + c * Z.to_nat batch_size)%nat by lia.
  rewrite firstn_plus, skipn_skipn. reflexivity.
Qed.

Lemma valid_doc_text (doc : dict) :
  validate_output fromisoformat doc None = Ok tt ->
  py_getitem (VDict doc) (lit "text") = Ok (dict_get doc (lit "text")).
Proof.
  intros H. unfold validate_output, check_text, dict_get in *.
  cbn [py_getitem]. destruct (lookup doc (lit "text")); [reflexivity|].
  discriminate H.
Qed.

Lemma doc_texts_valid (docs : list dict) :
  Forall (fun doc => validate_output fromisoformat doc None = Ok tt) docs ->
  doc_texts docs = Ok (map (fun doc => dict_get doc (lit "text")) docs).
Proof.
  unfold doc_texts. induction 1 as [|doc rest Hd Hr IH]; [reflexivity|].
  cbn [mapM map]. cbv beta. rewrite (@valid_doc_text doc Hd). cbn [bind].
  now rewrite IH.
Qed.

Lemma attach_embeddings_all (n : nat) (emb : value -> list Q)
  (docs : list dict) :
  (forall t, length (emb t) = n) ->
  Forall (fun doc => validate_output fromisoformat doc None = Ok tt) docs ->
  attach_embeddings fromisoformat (Some (Z.of_nat n)) docs
    (map (fun t => vector (emb t))
         (map (fun doc => dict_get doc (lit "text")) docs))
  = Ok (map (fun doc => with_embedding doc (emb (dict_get doc (lit "text")))) docs).
Proof.
  intros Hn. induction 1 as [|doc rest Hd Hr IH]; [reflexivity|].
  cbn [map attach_embeddings].
  rewrite <- (Hn (dict_get doc (lit "text"))) at 1.
  rewrite (@validate_output_attached fromisoformat doc _ Hd). cbn [bind].
  rewrite IH. reflexivity.
Qed.

(** X14: against a service that answers every batch honestly, in whatever
    order, with vectors of one length, the remote strategy gives every
    validated document the vector of its own text, for any positive batch
    size, and returns that length as the dimension. *)
Theorem add_embeddings_openai_correct (emb : value -> list Q) (n : nat)
  (key : str) (docs : list dict) (model_name : str) (batch_size : Z) :
  key <> [] -> docs <> [] -> 0 < batch_size ->
  (forall t, length (emb t) = n) ->
  Forall (fun doc => validate_output fromisoformat doc None = Ok tt) docs ->
  (forall k batch, exists data,
      embeddings_create k model_name batch = Ok data /\
      honest_response emb batch data) ->
  add_embeddings_openai fromisoformat embeddings_create (Some key) docs
    model_name batch_size
  = Ok (map (fun doc => with_embedding doc (emb (dict_get doc (lit "text")))) docs,
        Z.of_nat n).
Proof.
  intros Hk Hd Hb Hn Hv Hs. unfold add_embeddings_openai.
  destruct key as [|c key]; [congruence|].
  rewrite (@doc_texts_valid docs Hv). cbn [bind].
  rewrite (@py_range_positive _ batch_size Hb). cbn [bind].
  rewrite (@embed_batches_honest emb model_name batch_size _ Hb Hs). cbn [bind Nat.mul skipn].
  rewrite firstn_all2 by now apply ceil_div_covers; lia.
  destruct docs as [|doc rest]; [congruence|].
  cbn [map]. unfold vector at 1. cbn [py_len bind].
  rewrite length_map, Hn.
  pose proof (@attach_embeddings_all n emb _ Hn Hv) as Ha. cbn [map] in Ha.
  rewrite Ha. reflexivity.
Qed.

End RemoteFacts.

Lemma indexed_items_In (batch : list value) :
  forall i it,
    In it (indexed_items i batch) ->
    exists j t, nth_error batch j = Some t /\
                index it = Z.of_nat (i + j) /\ embedding it = text_vector t.
Proof.
  induction batch as [|t r IH]; intros i it Hin; [destruct Hin|].
  destruct Hin as [<- | Hin].
  - exists 0%nat, t. repeat split. cbn [index]. f_equal. lia.
  - destruct (IH _ _ Hin) as (j & t' & Hj & Hi & He).
    exists (S j), t'. repeat split; [assumption | | assumption].
    rewrite Hi. f_equal. lia.
Qed.

Lemma indexed_items_NoDup (batch : list value) :
  forall i, NoDup (map index (indexed_items i batch)).
Proof.
  induction batch as [|t r IH]; intros i; [constructor|].
  cbn [indexed_items map index]. constructor; [|apply IH].
  intros Hin. apply in_map_iff in Hin. destruct Hin as (it & Hi & Hin).
  apply indexed_items_In in Hin. destruct Hin as (j & t' & _ & Hj & _).
  lia.
Qed.

Lemma length_indexed_items (batch : list value) :
  forall i, length (indexed_items i batch) = length batch.
Proof. induction batch; intros i; simpl; auto. Qed.

Lemma scrambling_service_honest (k : nat) (model : str) (batch : list value) :
  exists data,
    scrambling_service k model batch = Ok data /\
    honest_response text_vector batch data.
Proof.
  eexists. split; [reflexivity|]. repeat split.
  - now rewrite length_rev, length_indexed_items.
  - rewrite map_rev. apply NoDup_rev, indexed_items_NoDup.
  - apply in_rev, indexed_items_In in H. destruct H as (j & t & _ & -> & _). lia.
  - apply in_rev, indexed_items_In in H. destruct H as (j & t & Hj & -> & He).
    exists t. now rewrite Nat2Z.id.
Qed.

(** X14, witness: two validated documents, the scrambling service and
    batches of one. *)
Lemma add_embeddings_openai_correct_witness :
  add_embeddings_openai iso_utc_format scrambling_service (Some (lit "sk-test"))
    [sample_document VNone; sample_document (VStr (lit "2024-01-01T10:00:00Z"))]
    (lit "text-embedding-3-small") 1
  = Ok (map (fun doc => with_embedding doc (text_vector (dict_get doc (lit "text"))))
            [sample_document VNone;
             sample_document (VStr (lit "2024-01-01T10:00:00Z"))],
        2).
Proof.
  refine (@add_embeddings_openai_correct iso_utc_format scrambling_service
            text_vector 2 (lit "sk-test")
            [sample_document VNone;
             sample_document (VStr (lit "2024-01-01T10:00:00Z"))]
            (lit "text-embedding-3-small") 1 _ _ _ _ _ _).
  - discriminate.
  - discriminate.
  - reflexivity.
  - intros [| | | | | |]; reflexivity.
  - repeat constructor.
  - intros k batch. apply scrambling_service_honest.
Defined.

Lemma place_items_out_of_range (data : list item) :
  forall init,
    (exists it, In it data /\
       (index it < - Z.of_nat (length init) \/ Z.of_nat (length init) <= index it)) ->
    place_items init data = Raise IndexError.
Proof.
  induction data as [|it rest IH]; intros init (bad & Hin & Hbad);
    [destruct Hin|].
  cbn [place_items]. unfold list_setitem.
  set (n := Z.of_nat (length init)) in *.
  destruct (Z.ltb_spec (index it) 0) as [Hneg | Hpos].
  - destruct (Z.leb_spec 0 (index it + n)) as [Hlo | Hlo]; cbn [andb].
    + destruct (Z.ltb_spec (index it + n) n) as [Hhi | Hhi]; [|lia].
      cbn [bind]. apply IH. exists bad. rewrite length_set_nth. fold n.
      destruct Hin as [-> | Hin]; [lia | auto].
    + reflexivity.
  - destruct (Z.leb_spec 0 (index it)) as [_ | ?]; [|lia]. cbn [andb].
    destruct (Z.ltb_spec (index it) n) as [Hhi | Hhi]; [|reflexivity].
    cbn [bind]. apply IH. exists bad. rewrite length_set_nth. fold n.
    destruct Hin as [-> | Hin]; [lia | auto].
Qed.

(** X15: a response with an item whose index lies outside the response
    (below minus its length, or at or above its length) makes the filling
    loop raise an [IndexError], whatever the other items are. *)
Theorem place_by_index_out_of_range (data : list item) :
  (exists it, In it data /\
     (index it < - Z.of_nat (length data) \/ Z.of_nat (length data) <= index it)) ->
  place_by_index data = Raise IndexError.
Proof.
  intros H. unfold place_by_index. apply place_items_out_of_range.
  now rewrite repeat_length.
Qed.

(** X15, witness: two items, the second with index 2. *)
Lemma place_by_index_out_of_range_witness :
  place_by_index [{| index := 0; embedding := position_vector 0 |};
                  {| index := 2; embedding := position_vector 1 |}]
  = Raise IndexError.
Proof.
  apply place_by_index_out_of_range.
  exists {| index := 2; embedding := position_vector 1 |}.
  split; [right; now left | right; cbn; lia].
Defined.

Section StrategyFacts.

Variable get_text : str -> str.
Variable fromisoformat : str -> bool.
Variable repr_nonstr : value -> str.
Variable SentenceTransformer : str -> result st_model.
Variable embeddings_create : nat -> str -> list value -> result (list item).

(** X16: with the remote strategy a run in which no document survives
    the transform loop (an empty input, for one) never writes its output:
    it raises the [ValueError] of the missing credential when the key is
    unset or empty, and otherwise the [ValueError] of the empty result;
    no request is made in either case. *)
Theorem run_pipeline_remote_empty (api_key : option str) (raw : list value)
  (limit : option Z) (model_name openai_model : str) :
  transform_loop get_text fromisoformat repr_nonstr (apply_limit limit raw)
    = Ok [] ->
  run_pipeline get_text fromisoformat repr_nonstr SentenceTransformer
    embeddings_create api_key raw limit model_name false (lit "openai")
    openai_model
  = Raise (ValueError (if env_unset api_key
                       then "OPENAI_API_KEY not set"
                       else "No embeddings returned from OpenAI")).
Proof.
  intros H. unfold run_pipeline. rewrite H. cbn [bind negb].
  change (str_eqb (lit "openai") (lit "openai")) with true. cbv iota.
  destruct api_key as [[|c k]|]; reflexivity.
Qed.

Lemma attach_embeddings_dimension (dim : Z) (docs : list dict) :
  dim <> 0 ->
  forall embeddings docs',
    attach_embeddings fromisoformat (Some dim) docs embeddings = Ok docs' ->
    Forall2 (fun doc doc' =>
               doc' = doc \/
               exists emb, doc' = dict_set doc (lit "embedding") (VList emb) /\
                           Z.of_nat (length emb) = dim)
            docs docs'.
Proof.
  intros Hd. induction docs as [|doc rest IH]; intros embeddings docs' H.
  - simpl in H. injection H as <-. constructor.
  - destruct embeddings as [|e embeddings].
    + simpl in H. injection H as <-.
      clear. induction (doc :: rest); constructor; auto.
    + cbn [attach_embeddings] in H.
      destruct (validate_output fromisoformat
                  (dict_set doc (lit "embedding") e) (Some dim)) as [[]|] eqn:Ev;
        [cbn [bind] in H | discriminate H].
      destruct (attach_embeddings fromisoformat (Some dim) rest embeddings)
        as [rest'|] eqn:Er; [cbn [bind] in H | discriminate H].
      injection H as <-. constructor; [|eapply IH; eassumption].
      right. rewrite validate_output_split in Ev.
      destruct (validate_output fromisoformat
                  (dict_set doc (lit "embedding") e) None) as [[]|];
        [cbn [bind] in Ev | discriminate Ev].
      rewrite (@check_embedding_spec _ dim Hd) in Ev.
      unfold embedding_mismatch in Ev.
      rewrite lookup_dict_set, str_eqb_refl in Ev.
      destruct e; try discriminate Ev.
      destruct (Z.eqb_spec (Z.of_nat (length l)) dim); [|discriminate Ev].
      eauto.
Qed.

(** X17: when the remote strategy succeeds with a dimension other than
    zero, it returns as many documents as it was given, in the same
    order, and each is either untouched or carries an embedding that is a
    list of exactly that many elements. *)
Theorem add_embeddings_openai_dimension (api_key : option str)
  (docs docs' : list dict) (model_name : str) (batch_size dim : Z) :
  add_embeddings_openai fromisoformat embeddings_create api_key docs
    model_name batch_size = Ok (docs', dim) ->
  dim <> 0 ->
  Forall2 (fun doc doc' =>
             doc' = doc \/
             exists emb, doc' = dict_set doc (lit "embedding") (VList emb) /\
                         Z.of_nat (length emb) = dim)
          docs docs'.
Proof.
  unfold add_embeddings_openai. intros H Hd.
  destruct api_key as [[|c k]|]; try discriminate H.
  destruct (doc_texts docs) as [texts|]; [cbn [bind] in H | discriminate H].
  destruct (py_range (length texts) batch_size) as [starts|];
    [cbn [bind] in H | discriminate H].
  destruct (embed_batches embeddings_create model_name batch_size texts 0 starts)
    as [[|first more]|]; try discriminate H. cbn [bind] in H.
  destruct (py_len first) as [d|]; [cbn [bind] in H | discriminate H].
  destruct (attach_embeddings fromisoformat (Some d) docs (first :: more))
    as [out|] eqn:Ea; [cbn [bind] in H | discriminate H].
  injection H as <- <-. eapply attach_embeddings_dimension; eassumption.
Qed.

Lemma attach_embeddings_rows (dim : option Z) (docs : list dict) :
  forall rows,
    length rows = length docs ->
    Forall (fun doc => validate_output fromisoformat doc None = Ok tt) docs ->
    (forall n, dim = Some n -> Forall (fun r => Z.of_nat (length r) = n) rows) ->
    attach_embeddings fromisoformat dim docs (map vector rows)
    = Ok (map (fun p => with_embedding (fst p) (snd p)) (combine docs rows)).
Proof.
  induction docs as [|doc rest IH]; intros rows Hl Hv Hn.
  - destruct rows; [reflexivity | discriminate Hl].
  - destruct rows as [|r rows]; [discriminate Hl|].
    inversion Hv as [|? ? Hd Hr]. subst.
    cbn [map attach_embeddings combine fst snd].
    assert (Hok : validate_output fromisoformat
                    (dict_set doc (lit "embedding") (vector r)) dim = Ok tt).
    { destruct dim as [n|].
      - specialize (Hn n eq_refl). inversion Hn. subst.
        now apply validate_output_attached.
      - now rewrite validate_output_set_embedding. }
    rewrite Hok. cbn [bind]. rewrite IH; [reflexivity | | assumption |].
    + simpl in Hl. lia.
    + intros n Hdim. specialize (Hn n Hdim). now inversion Hn.
Qed.

(** X18: when the model loads and encodes the texts of validated
    documents into one row per document, each of the model's declared
    size, the local strategy gives every document its own row, in order,
    and returns the declared size. *)
Theorem add_embeddings_sentence_transformers_correct (docs : list dict)
  (model_name : str) (model : st_model) (rows : list (list Q)) :
  SentenceTransformer model_name = Ok model ->
  Forall (fun doc => validate_output fromisoformat doc None = Ok tt) docs ->
  encode model (map (fun doc => dict_get doc (lit "text")) docs) = Ok rows ->
  length rows = length docs ->
  (forall n, get_sentence_embedding_dimension model = Some n ->
             Forall (fun r => Z.of_nat (length r) = n) rows) ->
  add_embeddings_sentence_transformers fromisoformat SentenceTransformer
    docs model_name
  = Ok (map (fun p => with_embedding (fst p) (snd p)) (combine docs rows),
        get_sentence_embedding_dimension model).
Proof.
  intros Hm Hv He Hl Hn. unfold add_embeddings_sentence_transformers.
  rewrite Hm. cbn [bind]. rewrite (@doc_texts_valid fromisoformat docs Hv).
  cbn [bind]. rewrite He. cbn [bind].
  rewrite (@attach_embeddings_rows _ docs rows Hl Hv Hn). reflexivity.
Qed.

End StrategyFacts.

(** X16, witness: the empty input with a key set. *)
Lemma run_pipeline_remote_empty_witness :
  run_pipeline entity_get_text iso_utc_format repr_placeholder
    (fun _ => Ok constant_model) reversing_service (Some (lit "sk-test")) []
    None (lit "all-MiniLM-L6-v2") false (lit "openai")
    (lit "text-embedding-3-small")
  = Raise (ValueError "No embeddings returned from OpenAI").
Proof.
  apply (@run_pipeline_remote_empty entity_get_text iso_utc_format
           repr_placeholder (fun _ => Ok constant_model) reversing_service
           (Some (lit "sk-test")) [] None).
  reflexivity.
Defined.

(** X17, witness: the two sample documents against the reversing
    service. *)
Lemma add_embeddings_openai_dimension_witness :
  Forall2 (fun doc doc' =>
             doc' = doc \/
             exists emb, doc' = dict_set doc (lit "embedding") (VList emb) /\
                         Z.of_nat (length emb) = 2)
    [sample_document VNone; sample_document (VStr (lit "2024-01-01T10:00:00Z"))]
    [with_embedding (sample_document VNone) (position_vector 0);
     with_embedding (sample_document (VStr (lit "2024-01-01T10:00:00Z")))
       (position_vector 1)].
Proof.
  refine (@add_embeddings_openai_dimension iso_utc_format reversing_service
            (Some (lit "sk-test")) _ _ (lit "text-embedding-3-small") 100 2 _ _).
  - reflexivity.
  - discriminate.
Defined.

(** X18, witness: the two sample documents and the constant model. *)
Lemma add_embeddings_sentence_transformers_correct_witness :
  add_embeddings_sentence_transformers iso_utc_format
    (fun _ => Ok constant_model)
    [sample_document VNone; sample_document (VStr (lit "2024-01-01T10:00:00Z"))]
    (lit "all-MiniLM-L6-v2")
  = Ok (map (fun p => with_embedding (fst p) (snd p))
            (combine [sample_document VNone;
                      sample_document (VStr (lit "2024-01-01T10:00:00Z"))]
                     [position_vector 0; position_vector 0]),
        get_sentence_embedding_dimension constant_model).
Proof.
  refine (@add_embeddings_sentence_transformers_correct iso_utc_format
            (fun _ => Ok constant_model) _ (lit "all-MiniLM-L6-v2")
            constant_model [position_vector 0; position_vector 0] _ _ _ _ _).
  - reflexivity.
  - repeat constructor.
  - reflexivity.
  - reflexivity.
  - intros n H. injection H as <-. repeat constructor.
Defined.

(** ** VectorStoreSink *)

(** The point built from a document: its vector is the document's
    embedding and its payload is the document's metadata with [text]
    set to the document's text. *)
Definition point_of (doc : dict) (p : point) : Prop :=
  lookup doc (lit "embedding") = Some (point_vector p) /\
  exists md text,
    lookup doc (lit "metadata") = Some (VDict md) /\
    lookup doc (lit "text") = Some text /\
    point_payload p = dict_set md (lit "text") text.

Section SinkFacts.

Variable valid_point : point -> bool.
Variable qdrant : qdrant_call -> result unit.

Lemma make_point_spec (idx : nat) (doc : dict) (p : point) :
  make_point valid_point idx doc = Ok p ->
  point_id p = idx /\ point_of doc p.
Proof.
  unfold make_point, point_of. cbn [py_getitem].
  destruct (lookup doc (lit "embedding")) as [vec|]; [|discriminate].
  cbn [bind].
  destruct (lookup doc (lit "metadata")) as [[| | | | | |m]|]; try discriminate.
  cbn [bind].
  destruct (lookup doc (lit "text")) as [text|]; [|discriminate].
  cbn [bind]. destruct (valid_point _); [|discriminate].
  intros H. injection H as <-. cbn. eauto 7.
Qed.

Lemma build_points_spec (docs : list dict) :
  forall idx points,
    build_points valid_point idx docs = Ok points ->
    map point_id points = seq idx (length docs) /\
    Forall2 point_of docs points.
Proof.
  induction docs as [|doc rest IH]; intros idx points H.
  - simpl in H. injection H as <-. split; constructor.
  - cbn [build_points] in H.
    destruct (make_point valid_point idx doc) as [p|] eqn:Ep;
      [cbn [bind] in H | discriminate H].
    destruct (build_points valid_point (S idx) rest) as [ps|] eqn:Eps;
      [cbn [bind] in H | discriminate H].
    injection H as <-. apply make_point_spec in Ep. destruct Ep as [Hid Hp].
    destruct (IH _ _ Eps) as [Hids Hps].
    split; [cbn [map length seq]; now rewrite Hid, Hids | now constructor].
Qed.

Lemma build_points_missing_embedding (docs : list dict) :
  forall idx,
    (exists doc, In doc docs /\ lookup doc (lit "embedding") = None) ->
    succeeds (build_points valid_point idx docs) = false.
Proof.
  induction docs as [|doc rest IH]; intros idx (bad & Hin & Hbad);
    [destruct Hin|].
  cbn [build_points]. rewrite succeeds_bind.
  destruct (make_point valid_point idx doc) as [p|] eqn:Ep; [|reflexivity].
  rewrite succeeds_bind.
  destruct Hin as [-> | Hin].
  - unfold make_point in Ep. cbn [py_getitem] in Ep. rewrite Hbad in Ep.
    discriminate Ep.
  - assert (Hr : succeeds (build_points valid_point (S idx) rest) = false)
      by (apply IH; eauto).
    destruct (build_points valid_point (S idx) rest);
      [discriminate Hr | reflexivity].
Qed.


(** X19: whenever [push_to_qdrant] sends an upsert, it has sent exactly
    two requests, the recreation of the collection with the given vector
    size and then that upsert, both for the configured collection (or
    [documents] when none is configured); the upsert holds one point per
    document, in order, numbered from 0, whose vector is the document's
    embedding and whose payload is the document's metadata with [text]
    set to the document's text: the payload reads back the document's
    text under [text] and the metadata under every other key. *)
Theorem push_to_qdrant_upsert (url api_key collection_env : option str)
  (docs : list dict) (vector_size : Z) (c : str) (points : list point) :
  In (Upsert c points)
     (calls (push_to_qdrant valid_point qdrant url api_key collection_env
               docs vector_size)) ->
  c = match collection_env with Some n => n | None => lit "documents" end /\
  calls (push_to_qdrant valid_point qdrant url api_key collection_env
           docs vector_size)
  = [RecreateCollection c vector_size; Upsert c points] /\
  map point_id points = seq 0 (length docs) /\
  Forall2 point_of docs points /\
  Forall2 (fun doc p =>
             lookup (point_payload p) (lit "text") = lookup doc (lit "text") /\
             forall md k,
               lookup doc (lit "metadata") = Some (VDict md) ->
               k <> lit "text" ->
               lookup (point_payload p) k = lookup md k)
          docs points.
Proof.
  unfold push_to_qdrant.
  destruct (env_unset url || env_unset api_key); [intros []|].
  destruct (qdrant (RecreateCollection _ vector_size));
    [|intros [H | []]; discriminate H].
  destruct (build_points valid_point 0 docs) as [ps|] eqn:Eb;
    [|intros [H | []]; discriminate H].
  intros [H | [H | []]]; [discriminate H|]. injection H as <- <-.
  destruct (build_points_spec _ _ Eb) as [Hids Hps].
  repeat split; try assumption.
  eapply Forall2_impl; [|exact Hps]. cbv beta.
  intros doc p (_ & md & text & Hm & Ht & ->). split.
  - now rewrite lookup_dict_set, str_eqb_refl.
  - intros md' k Hm' Hk. rewrite Hm in Hm'. injection Hm' as <-.
    rewrite lookup_dict_set.
    destruct (str_eqb (lit "text") k) eqn:E; [|reflexivity].
    apply str_eqb_eq in E. congruence.
Qed.

(** X20: when the store is configured and the recreation succeeds, a
    document without an embedding makes [push_to_qdrant] fail after the
    collection has been recreated and before anything is upserted. *)
Theorem push_to_qdrant_missing_embedding (url api_key collection_env : option str)
  (docs : list dict) (vector_size : Z) :
  env_unset url = false -> env_unset api_key = false ->
  qdrant (RecreateCollection
            match collection_env with Some n => n | None => lit "documents" end
            vector_size) = Ok tt ->
  (exists doc, In doc docs /\ lookup doc (lit "embedding") = None) ->
  calls (push_to_qdrant valid_point qdrant url api_key collection_env
           docs vector_size)
  = [RecreateCollection
       match collection_env with Some n => n | None => lit "documents" end
       vector_size] /\
  succeeds (outcome (push_to_qdrant valid_point qdrant url api_key
                       collection_env docs vector_size)) = false.
Proof.
  intros Hu Hk Hr Hbad. unfold push_to_qdrant. rewrite Hu, Hk, Hr. cbn [orb].
  pose proof (@build_points_missing_embedding docs 0%nat Hbad) as Hb.
  destruct (build_points valid_point 0 docs); [discriminate Hb|].
  split; reflexivity.
Qed.

End SinkFacts.

(** X19, witness: the sample output uploaded to a configured store that
    accepts everything. *)
Lemma push_to_qdrant_upsert_witness :
  lit "documents" = lit "documents" /\
  calls (push_to_qdrant (fun _ => true) (fun _ => Ok tt)
           (Some (lit "https://qdrant.example")) (Some (lit "secret")) None
           sample_output 2)
  = [RecreateCollection (lit "documents") 2;
     Upsert (lit "documents") sample_points] /\
  map point_id sample_points = seq 0 (length sample_output) /\
  Forall2 point_of sample_output sample_points /\
  Forall2 (fun doc p =>
             lookup (point_payload p) (lit "text") = lookup doc (lit "text") /\
             forall md k,
               lookup doc (lit "metadata") = Some (VDict md) ->
               k <> lit "text" ->
               lookup (point_payload p) k = lookup md k)
          sample_output sample_points.
Proof.
  apply (@push_to_qdrant_upsert (fun _ => true) (fun _ => Ok tt)
           (Some (lit "https://qdrant.example")) (Some (lit "secret")) None
           sample_output 2 (lit "documents") sample_points).
  right. left. reflexivity.
Defined.

(** X20, witness: the sample output followed by a document that was never
    embedded. *)
Lemma push_to_qdrant_missing_embedding_witness :
  calls (push_to_qdrant (fun _ => true) (fun _ => Ok tt)
           (Some (lit "https://qdrant.example")) (Some (lit "secret")) None
           (sample_output ++ [sample_document VNone]) 2)
  = [RecreateCollection (lit "documents") 2] /\
  succeeds (outcome (push_to_qdrant (fun _ => true) (fun _ => Ok tt)
                       (Some (lit "https://qdrant.example"))
                       (Some (lit "secret")) None
                       (sample_output ++ [sample_document VNone]) 2)) = false.
Proof.
  apply (@push_to_qdrant_missing_embedding (fun _ => true) (fun _ => Ok tt)
           (Some (lit "https://qdrant.example")) (Some (lit "secret")) None
           (sample_output ++ [sample_document VNone]) 2).
  - reflexivity.
  - reflexivity.
  - reflexivity.
  - exists (sample_document VNone). split; [|reflexivity].
    apply in_or_app. right. now left.
Defined.

(** ** The whole run *)

Section FullRunFacts.

Variable get_text : str -> str.
Variable fromisoformat : str -> bool.
Variable repr_nonstr : value -> str.
Variable SentenceTransformer : str -> result st_model.
Variable embeddings_create : nat -> str -> list value -> result (list item).
Variable valid_point : point -> bool.
Variable qdrant : qdrant_call -> result unit.



End FullRunFacts.
